(** * DNSSEC signature verification (dnssec.c)

    A shallow embedding of [verify_rrsig] and of the three per-algorithm
    verifiers [verify_rrsig_dsa], [verify_rrsig_rsasha1] and
    [verify_rrsig_rsamd5], followed by the properties of the design
    document that concern them.

    Conventions of the embedding.
    - C integers are [Z]; every conversion the source performs is written
      out ([to_int], [to_uint]).  The data model is ILP32, which is what
      the source's cast [(size_t * ) &siglen] of an [unsigned int *]
      presupposes.
    - A buffer is the list of the bytes of the object a pointer points to.
      Reading outside that object is undefined behaviour in C and is the
      outcome [Fault] here; so is following a missing rdata field.
    - A function either returns a value, terminates the process through
      [exit], or faults.  Calls that the properties talk about (digests,
      verification primitives, diagnostics) are recorded, in program
      order, in a trace of events.
    - OpenSSL and the rest of ldns are interfaces ([OpenSSL], [Ldns]); the
      macros of the missing headers are the fields of [Constants].
    - Allocation ([xmalloc], [BN_new], [DSA_new], ...) is taken to succeed
      and is not recorded. *)

From Stdlib Require Import ZArith List String Bool Lia.
From Stdlib.Strings Require Import Byte.
Import ListNotations.
Local Open Scope string_scope.
Local Open Scope list_scope.
Local Open Scope Z_scope.

(** ** Machine integers *)

(** Conversion to [unsigned int] / [unsigned long] / [size_t] (32 bits). *)
Definition to_uint (z : Z) : Z := z mod 2 ^ 32.

(** Conversion to [int] (32 bits, two's complement). *)
Definition to_int (z : Z) : Z :=
  let w := z mod 2 ^ 32 in if w <? 2 ^ 31 then w else w - 2 ^ 32.

(** The value of an [unsigned char]. *)
Definition byte_val (b : byte) : Z := Z.of_N (Byte.to_N b).

(** ** Buffers *)

Definition buffer := list byte.

Definition buflen (b : buffer) : Z := Z.of_nat (List.length b).

(** [b[i]] *)
Definition load (b : buffer) (i : Z) : option byte :=
  if i <? 0 then None else nth_error b (Z.to_nat i).

(** The [len] bytes at [&b[off]], as [memcpy] and the library read them. *)
Definition load_range (b : buffer) (off len : Z) : option (list byte) :=
  if (off <? 0) || (len <? 0) || (buflen b <? off + len) then None
  else Some (firstn (Z.to_nat len) (skipn (Z.to_nat off) b)).

(** [bs] stored at [&buf[off]]. *)
Definition write_at (buf : buffer) (off : Z) (bs : list byte) : buffer :=
  firstn (Z.to_nat off) buf ++ bs
    ++ skipn (Z.to_nat off + List.length bs) buf.

(** The non-negative integer a big-endian byte string denotes: the value
    OpenSSL's [BN_bin2bn] stores in the [BIGNUM] it returns. *)
Definition be2Z (bs : list byte) : Z :=
  fold_left (fun acc b => acc * 256 + byte_val b) bs 0.

(** [ntohs] of the two bytes [memcpy] placed in a [uint16_t]. *)
Definition ntohs (hi lo : byte) : Z := byte_val hi * 256 + byte_val lo.

(** ** Records of ldns and OpenSSL *)

(** [struct t_rdata]: the fields [data] and [length]. *)
Record t_rdata := { rd_data : list byte; rd_length : Z }.

(** [struct t_rr]; an RRset is the list of its records. *)
Record t_rr := {
  rr_name : list byte;
  rr_type : Z;
  rr_class : Z;
  rr_ttl : Z;
  rdata : list t_rdata
}.

(** [DSA]: the fields the source assigns. *)
Record DSA := { dsa_p : Z; dsa_q : Z; dsa_g : Z; dsa_pub_key : Z }.

(** [DSA_SIG] *)
Record DSA_SIG := { sig_r : Z; sig_s : Z }.

(** [RSA]: the fields the source assigns. *)
Record RSA := { rsa_n : Z; rsa_e : Z }.

(** ** Events and outcomes *)

Inductive arg :=
| AInt (z : Z)
| AStr (s : string).

Inductive event :=
| Ev_warning (fmt : string) (args : list arg)
| Ev_error (fmt : string)
| Ev_ERR_print_errors_fp
| Ev_print_rd (rd : t_rdata)
| Ev_print_rr (rr : t_rr) (follow : Z)
| Ev_printf (s : string)
| Ev_SHA1 (d : list byte)
| Ev_MD5 (d : list byte)
| Ev_DSA_do_verify (dgst : option (list byte)) (dgst_len : Z)
                   (sig : DSA_SIG) (dsa : DSA)
| Ev_RSA_verify (type : Z) (m : option (list byte)) (m_len : Z)
                (sigbuf : buffer) (siglen : Z) (rsa : RSA).

Inductive outcome (A : Type) :=
| Return (a : A)
| Exit (status : Z)
| Fault.
Arguments Return {A} a.
Arguments Exit {A} status.
Arguments Fault {A}.

(** A computation: the events it performed and how it ended. *)
Definition M (A : Type) : Type := list event * outcome A.

Definition ret {A} (a : A) : M A := ([], Return a).

Definition bind {A B} (m : M A) (k : A -> M B) : M B :=
  match m with
  | (t, Return a) => let (t', o) := k a in (t ++ t', o)
  | (t, Exit st) => (t, Exit st)
  | (t, Fault) => (t, Fault)
  end.

Definition emit (e : event) : M unit := ([e], Return tt).

Definition exit {A} (status : Z) : M A := ([], Exit status).

(** A read that faults when it leaves the object. *)
Definition deref {A} (o : option A) : M A :=
  match o with
  | Some a => ret a
  | None => ([], Fault)
  end.

Definition trace {A} (m : M A) : list event := fst m.
Definition result {A} (m : M A) : outcome A := snd m.

Declare Scope m_scope.
Delimit Scope m_scope with m.
Notation "x <- c ;; k" := (bind c (fun x => k))
  (at level 61, c at next level, right associativity) : m_scope.
Notation "c ;;; k" := (bind c (fun _ => k))
  (at level 61, right associativity) : m_scope.
Local Open Scope m_scope.

(** Events that are calls of a public-key verification primitive. *)
Definition is_verify_call (e : event) : bool :=
  match e with
  | Ev_DSA_do_verify _ _ _ _ => true
  | Ev_RSA_verify _ _ _ _ _ _ => true
  | _ => false
  end.

Definition is_digest_call (e : event) : bool :=
  match e with
  | Ev_SHA1 _ => true
  | Ev_MD5 _ => true
  | _ => false
  end.

(** ** Interfaces *)

(** Macros of the headers that are not part of this file. *)
Class Constants := {
  RET_SUC : Z;
  RET_FAIL : Z;
  ALG_DSA : Z;
  ALG_RSASHA1 : Z;
  ALG_RSAMD5 : Z;
  MAX_PACKET : Z;
  FOLLOW : Z;
  EXIT_FAILURE : Z;
  NID_sha1 : Z;
  NID_md5 : Z
}.

(** The OpenSSL functions whose results the source inspects.  A digest
    function returns a pointer ([None] is [NULL]); a verification
    primitive returns an [int]. *)
Class OpenSSL := {
  SHA1 : list byte -> option (list byte);
  MD5 : list byte -> option (list byte);
  DSA_do_verify : option (list byte) -> Z -> DSA_SIG -> DSA -> Z;
  RSA_verify : Z -> option (list byte) -> Z -> buffer -> Z -> RSA -> Z
}.

(** The ldns functions [verify_rrsig] calls.  [base64_decode] returns the
    decoded object and the size it stores through its last argument; the
    two serializers return the buffer as they leave it and their return
    value; [xmalloc] gives the (indeterminate) contents of a fresh
    block. *)
Class Ldns := {
  xmalloc : Z -> buffer;
  base64_decode : list byte -> Z -> buffer * Z;
  sig2verifybytes : t_rr -> buffer -> Z -> Z -> buffer * Z;
  rrset_sort : list t_rr -> list t_rr;
  rrset_set_ttl : list t_rr -> Z -> list t_rr;
  rrset2wire : list t_rr -> buffer -> Z -> Z -> buffer * Z;
  rdata2uint32 : t_rdata -> Z;
  rdata2uint8 : t_rdata -> Z;
  namebyint : Z -> string
}.

(** ** What the design document says, in its own words *)

(** The DSA public key of RFC 2536 as the document describes its
    decoding: [T], then [Q] (20 bytes), then [P], [G] and [Y] of
    [64 + T*8] bytes each; [None] when [T > 8] or when the blob is too
    short. *)
Definition numberlength_of (T : Z) : Z := 64 + T * 8.

Definition spec_dsa_key (key_bytes : buffer) : option DSA :=
  match load key_bytes 0 with
  | None => None
  | Some t =>
      let T := byte_val t in
      let nl := numberlength_of T in
      if 8 <? T then None
      else
        match load_range key_bytes 1 20,
              load_range key_bytes 21 nl,
              load_range key_bytes (21 + nl) nl,
              load_range key_bytes (21 + nl + nl) nl with
        | Some q, Some p, Some g, Some y =>
            Some {| dsa_p := be2Z p; dsa_q := be2Z q;
                    dsa_g := be2Z g; dsa_pub_key := be2Z y |}
        | _, _, _, _ => None
        end
  end.

(** The RSA public key of RFC 3110 as the document describes its
    decoding.  [spec_rsa_header] gives the exponent length and the offset
    of the exponent: a first byte of zero announces a 2-byte big-endian
    length (3-byte header), any other first byte is the length itself
    (1-byte header).  The exponent follows; the rest of the [keylen]
    bytes of the blob is the modulus. *)
Definition spec_rsa_header (key_bytes : buffer) : option (Z * Z) :=
  match load key_bytes 0 with
  | None => None
  | Some b0 =>
      if byte_val b0 =? 0 then
        match load key_bytes 1, load key_bytes 2 with
        | Some hi, Some lo => Some (byte_val hi * 256 + byte_val lo, 3)
        | _, _ => None
        end
      else Some (byte_val b0, 1)
  end.

Definition spec_rsa_key (key_bytes : buffer) (keylen : Z) : option RSA :=
  match spec_rsa_header key_bytes with
  | None => None
  | Some (explength, offset) =>
      match load_range key_bytes offset explength,
            load_range key_bytes (offset + explength)
                       (keylen - (offset + explength)) with
      | Some e, Some n => Some {| rsa_n := be2Z n; rsa_e := be2Z e |}
      | _, _ => None
      end
  end.

(** The computed modulus length of the document: total key length minus
    header and exponent. *)
Definition spec_modulus_length (key_bytes : buffer) (keylen : Z) : option Z :=
  match spec_rsa_header key_bytes with
  | None => None
  | Some (explength, offset) => Some (keylen - (offset + explength))
  end.

Section Verifiers.

Context {K : Constants} {SSL : OpenSSL}.

(** [warning(fmt, ...)] *)
Definition warning (fmt : string) (args : list arg) : M unit :=
  emit (Ev_warning fmt args).

(** [BN_bin2bn(&b[off], len, ...)] *)
Definition BN_bin2bn (b : buffer) (off len : Z) : M Z :=
  bs <- deref (load_range b off len) ;;
  ret (be2Z bs).

(** [SHA1(buf, length, NULL)] *)
Definition call_SHA1 (buf : buffer) (length : Z) : M (option (list byte)) :=
  d <- deref (load_range buf 0 length) ;;
  emit (Ev_SHA1 d) ;;;
  ret (SHA1 d).

(** [MD5(buf, length, digest)] *)
Definition call_MD5 (buf : buffer) (length : Z) : M (option (list byte)) :=
  d <- deref (load_range buf 0 length) ;;
  emit (Ev_MD5 d) ;;;
  ret (MD5 d).

Definition call_DSA_do_verify (dgst : option (list byte)) (dgst_len : Z)
    (sig : DSA_SIG) (dsa : DSA) : M Z :=
  emit (Ev_DSA_do_verify dgst dgst_len sig dsa) ;;;
  ret (DSA_do_verify dgst dgst_len sig dsa).

Definition call_RSA_verify (type : Z) (m : option (list byte)) (m_len : Z)
    (sigbuf : buffer) (siglen : Z) (rsa : RSA) : M Z :=
  emit (Ev_RSA_verify type m m_len sigbuf siglen rsa) ;;;
  ret (RSA_verify type m m_len sigbuf siglen rsa).

(** *** [verify_rrsig_dsa] *)

Definition verify_rrsig_dsa (verifybuf : buffer) (length : Z)
    (sigbuf : buffer) (siglen : Z) (key_bytes : buffer) (keylen : Z) : M Z :=
  k0 <- deref (load key_bytes 0) ;;
  let T := byte_val k0 in
  let offset := 1 in
  let numberlength := to_int (64 + T * 8) in
  if 8 <? T then
    warning "DSA type > 8 not implemented, unable to verify signature" [] ;;;
    ret RET_FAIL
  else
    Q <- BN_bin2bn key_bytes offset 20 ;;
    let offset := to_int (offset + 20) in
    P <- BN_bin2bn key_bytes offset numberlength ;;
    let offset := to_int (offset + numberlength) in
    G <- BN_bin2bn key_bytes offset numberlength ;;
    let offset := to_int (offset + numberlength) in
    Y <- BN_bin2bn key_bytes offset numberlength ;;
    s0 <- deref (load sigbuf 0) ;;
    let t_sig := byte_val s0 in
    if negb (t_sig =? T) then
      warning "Values for T are different in key and signature, verification of DSA sig failed" [] ;;;
      ret RET_FAIL
    else
      R <- BN_bin2bn sigbuf 1 20 ;;
      S <- BN_bin2bn sigbuf 21 20 ;;
      let dsa := {| dsa_p := P; dsa_q := Q; dsa_g := G; dsa_pub_key := Y |} in
      hash <- call_SHA1 verifybuf length ;;
      let sig := {| sig_r := R; sig_s := S |} in
      dsa_res <- call_DSA_do_verify hash 20 sig dsa ;;
      if dsa_res =? 1 then ret RET_SUC
      else if dsa_res =? 0 then ret RET_FAIL
      else
        warning "internal error when verifying: %d" [AInt dsa_res] ;;;
        emit Ev_ERR_print_errors_fp ;;;
        ret RET_FAIL.

(** *** The RSA key blob (RFC 3110)

    The statements that decode the key are the same, character for
    character, in [verify_rrsig_rsasha1] and [verify_rrsig_rsamd5]; they
    are written once here.  [memcpy] takes a [size_t], [BN_bin2bn] an
    [int]: the modulus length is [keylen-offset] computed in
    [unsigned int] for the first and [(int) keylen-offset] for the
    second. *)

Definition memcpy_from (src : buffer) (off n : Z) : M buffer :=
  deref (load_range src off n).

Definition decode_rsa_key (key_bytes : buffer) (keylen : Z) : M RSA :=
  k0 <- deref (load key_bytes 0) ;;
  hdr <- (if byte_val k0 =? 0 then
            hi <- deref (load key_bytes 1) ;;
            lo <- deref (load key_bytes 2) ;;
            ret (to_int (ntohs hi lo), 3)
          else
            ret (to_int (byte_val k0), 1)) ;;
  let explength := fst hdr in
  let offset := snd hdr in
  (* Exponent *)
  exponent_bytes <- memcpy_from key_bytes offset (to_uint explength) ;;
  exponent <- BN_bin2bn exponent_bytes 0 explength ;;
  let offset := to_int (offset + explength) in
  (* Modulus *)
  modulus_bytes <- memcpy_from key_bytes offset (to_uint (keylen - offset)) ;;
  modulus <- BN_bin2bn modulus_bytes 0 (to_int (to_int keylen - offset)) ;;
  ret {| rsa_n := modulus; rsa_e := exponent |}.

(** *** [verify_rrsig_rsasha1] *)

Definition verify_rrsig_rsasha1 (verifybuf : buffer) (length : Z)
    (sigbuf : buffer) (siglen : Z) (key_bytes : buffer) (keylen : Z) : M Z :=
  rsa <- decode_rsa_key key_bytes keylen ;;
  digest <- call_SHA1 verifybuf length ;;
  match digest with
  | None => emit (Ev_error "Error digesting") ;;; exit EXIT_FAILURE
  | Some _ => ret tt
  end ;;;
  rsa_res <- call_RSA_verify NID_sha1 digest 20 sigbuf siglen rsa ;;
  if rsa_res =? 1 then ret RET_SUC
  else if rsa_res =? 0 then ret RET_FAIL
  else
    warning "internal error when verifying: %d\n" [AInt rsa_res] ;;;
    emit Ev_ERR_print_errors_fp ;;;
    ret RET_FAIL.

(** *** [verify_rrsig_rsamd5] *)

Definition verify_rrsig_rsamd5 (verifybuf : buffer) (length : Z)
    (sigbuf : buffer) (siglen : Z) (key_bytes : buffer) (keylen : Z) : M Z :=
  rsa <- decode_rsa_key key_bytes keylen ;;
  digest <- call_MD5 verifybuf length ;;
  match digest with
  | None => emit (Ev_error "Error digesting\n") ;;; exit EXIT_FAILURE
  | Some _ => ret tt
  end ;;;
  rsa_res <- call_RSA_verify NID_md5 digest 16 sigbuf siglen rsa ;;
  if rsa_res =? 1 then ret RET_SUC
  else if rsa_res =? 0 then ret RET_FAIL
  else
    warning "internal error when verifying: %d\n" [AInt rsa_res] ;;;
    emit Ev_ERR_print_errors_fp ;;;
    ret RET_FAIL.

(** *** [verify_rrsig] *)

Context {L : Ldns}.

(** [rr->rdata[i]] *)
Definition rdata_at (rr : t_rr) (i : nat) : M t_rdata :=
  deref (nth_error (rdata rr) i).

(** The statements of [verify_rrsig] up to the decoding of the key: the
    contents of [verifybuf] and the value of [length] they leave. *)
Definition signed_buffer (rrset : list t_rr) (rrsig : t_rr) : M (buffer * Z) :=
  let verifybuf := xmalloc MAX_PACKET in
  let length := 0 in
  let (verifybuf, n1) := sig2verifybytes rrsig verifybuf length MAX_PACKET in
  let length := to_uint (length + n1) in
  let rrset := rrset_sort rrset in
  (* set the ttl in the rrset... *)
  rd3 <- rdata_at rrsig 3 ;;
  let int32 := rdata2uint32 rd3 in
  let rrset := rrset_set_ttl rrset int32 in
  let (verifybuf, n2) := rrset2wire rrset verifybuf length MAX_PACKET in
  let length := to_uint (length + n2) in
  ret (verifybuf, length).

Definition verify_rrsig (rrset : list t_rr) (rrsig dnskey : t_rr) : M Z :=
  rd8 <- rdata_at rrsig 8 ;;
  let (sigbuf, n) := base64_decode (rd_data rd8) (to_int (rd_length rd8)) in
  let siglen := to_uint n in
  vb <- signed_buffer rrset rrsig ;;
  let verifybuf := fst vb in
  let length := snd vb in
  kd <- rdata_at dnskey 3 ;;
  let (key_bytes, n) := base64_decode (rd_data kd) (to_int (rd_length kd)) in
  let keylen := to_uint n in
  if keylen <? 0 then
    warning "Error in base64 decode of key data:" [] ;;;
    (* XXX TODO *)
    emit (Ev_print_rd kd) ;;;
    emit (Ev_printf "\n") ;;;
    ret RET_FAIL
  else
    rd1 <- rdata_at rrsig 1 ;;
    let alg := rdata2uint8 rd1 in
    if alg =? ALG_DSA then
      verify_rrsig_dsa verifybuf length sigbuf siglen key_bytes keylen
    else if alg =? ALG_RSASHA1 then
      verify_rrsig_rsasha1 verifybuf length sigbuf siglen key_bytes keylen
    else if alg =? ALG_RSAMD5 then
      verify_rrsig_rsamd5 verifybuf length sigbuf siglen key_bytes keylen
    else
      warning "unknown or unimplemented algorithm (alg %s nr %d)"
              [AStr (namebyint alg); AInt alg] ;;;
      emit (Ev_print_rr rrsig FOLLOW) ;;;
      exit EXIT_FAILURE.

(** ** Runs of the verifiers *)

(** The value a verifier returns for the [int] its primitive reported,
    with the diagnostics it prints on the way. *)
Definition report (fmt : string) (res : Z) : M Z :=
  if res =? 1 then ret RET_SUC
  else if res =? 0 then ret RET_FAIL
  else ([Ev_warning fmt [AInt res]; Ev_ERR_print_errors_fp], Return RET_FAIL).

(** *** The runs of [verify_rrsig_dsa] *)

Inductive dsa_run (vb : buffer) (len : Z) (sb kb : buffer) : M Z -> Prop :=
| dsa_run_no_key :
    load kb 0 = None ->
    dsa_run vb len sb kb ([], Fault)
| dsa_run_unsupported t :
    load kb 0 = Some t -> 8 < byte_val t ->
    dsa_run vb len sb kb
      ([Ev_warning "DSA type > 8 not implemented, unable to verify signature" []],
       Return RET_FAIL)
| dsa_run_short_key t :
    load kb 0 = Some t -> byte_val t <= 8 ->
    spec_dsa_key kb = None ->
    dsa_run vb len sb kb ([], Fault)
| dsa_run_short_sig t d :
    load kb 0 = Some t -> byte_val t <= 8 ->
    spec_dsa_key kb = Some d ->
    (load sb 0 = None \/
     exists s, load sb 0 = Some s /\ byte_val s = byte_val t /\
               (load_range sb 1 20 = None \/ load_range sb 21 20 = None)) ->
    dsa_run vb len sb kb ([], Fault)
| dsa_run_mismatch t d s :
    load kb 0 = Some t -> byte_val t <= 8 ->
    spec_dsa_key kb = Some d ->
    load sb 0 = Some s -> byte_val s <> byte_val t ->
    dsa_run vb len sb kb
      ([Ev_warning "Values for T are different in key and signature, verification of DSA sig failed" []],
       Return RET_FAIL)
| dsa_run_fault_digest t d s r s' :
    load kb 0 = Some t -> byte_val t <= 8 ->
    spec_dsa_key kb = Some d ->
    load sb 0 = Some s -> byte_val s = byte_val t ->
    load_range sb 1 20 = Some r -> load_range sb 21 20 = Some s' ->
    load_range vb 0 len = None ->
    dsa_run vb len sb kb ([], Fault)
| dsa_run_verify t d s r s' data :
    load kb 0 = Some t -> byte_val t <= 8 ->
    spec_dsa_key kb = Some d ->
    load sb 0 = Some s -> byte_val s = byte_val t ->
    load_range sb 1 20 = Some r -> load_range sb 21 20 = Some s' ->
    load_range vb 0 len = Some data ->
    let sg := {| sig_r := be2Z r; sig_s := be2Z s' |} in
    let res := DSA_do_verify (SHA1 data) 20 sg d in
    dsa_run vb len sb kb
      (Ev_SHA1 data :: Ev_DSA_do_verify (SHA1 data) 20 sg d
         :: trace (report "internal error when verifying: %d" res),
       result (report "internal error when verifying: %d" res)).

(** *** The runs of the two RSA verifiers

    [digest_ev], [digest], [nid] and [dlen] are the digest call, its
    function, the digest identifier and the digest length of the
    verifier; [emsg] is the text it prints when the digest is [NULL]. *)

Inductive rsa_run (digest_ev : list byte -> event)
    (digest : list byte -> option (list byte)) (nid dlen : Z) (emsg : string)
    (vb : buffer) (len : Z) (sb : buffer) (sl : Z) (kb : buffer) (kl : Z)
  : M Z -> Prop :=
| rsa_run_fault_key :
    decode_rsa_key kb kl = ([], Fault) ->
    rsa_run digest_ev digest nid dlen emsg vb len sb sl kb kl ([], Fault)
| rsa_run_fault_digest rsa :
    decode_rsa_key kb kl = ([], Return rsa) ->
    load_range vb 0 len = None ->
    rsa_run digest_ev digest nid dlen emsg vb len sb sl kb kl ([], Fault)
| rsa_run_exit rsa data :
    decode_rsa_key kb kl = ([], Return rsa) ->
    load_range vb 0 len = Some data ->
    digest data = None ->
    rsa_run digest_ev digest nid dlen emsg vb len sb sl kb kl
      ([digest_ev data; Ev_error emsg], Exit EXIT_FAILURE)
| rsa_run_verify rsa data dg :
    decode_rsa_key kb kl = ([], Return rsa) ->
    load_range vb 0 len = Some data ->
    digest data = Some dg ->
    let res := RSA_verify nid (Some dg) dlen sb sl rsa in
    rsa_run digest_ev digest nid dlen emsg vb len sb sl kb kl
      (digest_ev data :: Ev_RSA_verify nid (Some dg) dlen sb sl rsa
         :: trace (report "internal error when verifying: %d\n" res),
       result (report "internal error when verifying: %d\n" res)).

(** *** Vocabulary of the properties *)

(** What the verification primitive reported at a call of it. *)
Definition reported (e : event) : option Z :=
  match e with
  | Ev_DSA_do_verify h n sg d => Some (DSA_do_verify h n sg d)
  | Ev_RSA_verify ty m n sb sl rsa => Some (RSA_verify ty m n sb sl rsa)
  | _ => None
  end.

(** The three cases of the [switch] in [verify_rrsig]. *)
Inductive path := Path_DSA | Path_RSASHA1 | Path_RSAMD5.

Definition alg_of_path (p : path) : Z :=
  match p with
  | Path_DSA => ALG_DSA
  | Path_RSASHA1 => ALG_RSASHA1
  | Path_RSAMD5 => ALG_RSAMD5
  end.

(** The digest pairing of a path, as a condition on one event of a run
    over the signed buffer [vb], [len]: which digest function may be
    called and on what, and which primitive may be called, with which
    digest identifier, digest length and digest. *)
Definition pairing (p : path) (vb : buffer) (len : Z) (e : event) : Prop :=
  match e, p with
  | Ev_SHA1 d, (Path_DSA | Path_RSASHA1) => load_range vb 0 len = Some d
  | Ev_SHA1 _, Path_RSAMD5 => False
  | Ev_MD5 d, Path_RSAMD5 => load_range vb 0 len = Some d
  | Ev_MD5 _, (Path_DSA | Path_RSASHA1) => False
  | Ev_DSA_do_verify h n _ _, Path_DSA =>
      n = 20 /\ exists d, load_range vb 0 len = Some d /\ h = SHA1 d
  | Ev_DSA_do_verify _ _ _ _, (Path_RSASHA1 | Path_RSAMD5) => False
  | Ev_RSA_verify ty m n _ _ _, Path_RSASHA1 =>
      ty = NID_sha1 /\ n = 20 /\
      exists d, load_range vb 0 len = Some d /\ m = SHA1 d
  | Ev_RSA_verify ty m n _ _ _, Path_RSAMD5 =>
      ty = NID_md5 /\ n = 16 /\
      exists d, load_range vb 0 len = Some d /\ m = MD5 d
  | Ev_RSA_verify _ _ _ _ _ _, Path_DSA => False
  | _, _ => True
  end.

(** The digest function, digest identifier and digest length the document
    assigns to a path. *)
Definition path_digest (p : path) : list byte -> option (list byte) :=
  match p with Path_RSAMD5 => MD5 | _ => SHA1 end.

Definition path_nid (p : path) : Z :=
  match p with Path_RSAMD5 => NID_md5 | _ => NID_sha1 end.

Definition path_dlen (p : path) : Z :=
  match p with Path_RSAMD5 => 16 | _ => 20 end.

Definition path_digest_event (p : path) : list byte -> event :=
  match p with Path_RSAMD5 => Ev_MD5 | _ => Ev_SHA1 end.

(** The inputs on which the verifier of a path gets as far as its
    digest: the key decodes, and on the DSA path the signature object
    holds its 41 bytes and begins with the key's [T]. *)
Definition reaches_digest (p : path) (sb kb : buffer) (kl : Z) : Prop :=
  match p with
  | Path_DSA =>
      exists t d s,
        load kb 0 = Some t /\ spec_dsa_key kb = Some d /\
        load sb 0 = Some s /\ byte_val s = byte_val t /\ 41 <= buflen sb
  | _ => 0 <= kl < 2 ^ 31 /\ exists rsa, spec_rsa_key kb kl = Some rsa
  end.

(** The digest identifier (RSA only), the digest and the digest length a
    call of a verification primitive carries, and those the document
    assigns to a path for the signed bytes [data]. *)
Definition call_digest (e : event)
  : option (option Z * option (list byte) * Z) :=
  match e with
  | Ev_DSA_do_verify h n _ _ => Some (None, h, n)
  | Ev_RSA_verify ty m n _ _ _ => Some (Some ty, m, n)
  | _ => None
  end.

Definition expected_call_digest (p : path) (data : list byte)
  : option Z * option (list byte) * Z :=
  (match p with Path_DSA => None | _ => Some (path_nid p) end,
   path_digest p data, path_dlen p).

(** The events of the branch of [verify_rrsig] that its test
    [keylen < 0] guards. *)
Definition base64_guard_event (e : event) : bool :=
  match e with
  | Ev_print_rd _ => true
  | Ev_printf _ => true
  | Ev_warning fmt _ => String.eqb fmt "Error in base64 decode of key data:"
  | _ => false
  end.

(** The verifier a case of the [switch] calls. *)
Definition dispatch_verifier (p : path) :
    buffer -> Z -> buffer -> Z -> buffer -> Z -> M Z :=
  match p with
  | Path_DSA => verify_rrsig_dsa
  | Path_RSASHA1 => verify_rrsig_rsasha1
  | Path_RSAMD5 => verify_rrsig_rsamd5
  end.

End Verifiers.

(** ** A concrete environment

    Stand-ins for the two libraries, used to run the embedding on explicit
    inputs.  The digest functions return a block of zeros of the right
    size.  The DSA primitive reports an error (-1) when [r] is zero,
    accepts (1) when [r = s] and rejects (0) otherwise; the RSA primitive
    reports an error when the modulus is zero, accepts when the signature
    read as a number is the exponent and rejects otherwise.  The ldns
    stand-ins keep rdata undecoded, serialize an RRSIG as its first eight
    rdata fields and an RRset as, per record, the 32-bit TTL followed by
    the rdata, and sort by TTL. *)

Module Demo.

#[export] Instance constants : Constants := {|
  RET_SUC := 0;
  RET_FAIL := 1;
  ALG_DSA := 3;
  ALG_RSASHA1 := 5;
  ALG_RSAMD5 := 1;
  MAX_PACKET := 512;
  FOLLOW := 1;
  EXIT_FAILURE := 1;
  NID_sha1 := 64;
  NID_md5 := 4
|}.

#[export] Instance openssl : OpenSSL := {|
  SHA1 := fun _ => Some (repeat x00 20);
  MD5 := fun _ => Some (repeat x00 16);
  DSA_do_verify := fun _ _ sig _ =>
    if sig_r sig =? 0 then -1
    else if sig_r sig =? sig_s sig then 1 else 0;
  RSA_verify := fun _ _ _ sigbuf siglen rsa =>
    if rsa_n rsa =? 0 then -1
    else if be2Z sigbuf =? rsa_e rsa then 1 else 0
|}.

(** A library whose digest functions return [NULL]. *)
Definition openssl_null : OpenSSL := {|
  SHA1 := fun _ => None;
  MD5 := fun _ => None;
  DSA_do_verify := fun _ _ _ _ => -1;
  RSA_verify := fun _ _ _ _ _ _ => -1
|}.

Definition u32_bytes (z : Z) : list byte :=
  map (fun k => match Byte.of_N (Z.to_N ((z / 256 ^ k) mod 256)) with
                | Some b => b
                | None => x00
                end) [3; 2; 1; 0].

Definition sig_fields (rrsig : t_rr) : list byte :=
  List.concat (map rd_data (firstn 8 (rdata rrsig))).

Definition rr_wire (rr : t_rr) : list byte :=
  u32_bytes (rr_ttl rr) ++ List.concat (map rd_data (rdata rr)).

Definition rrset_wire (rrset : list t_rr) : list byte :=
  List.concat (map rr_wire rrset).

Fixpoint insert_rr (rr : t_rr) (l : list t_rr) : list t_rr :=
  match l with
  | [] => [rr]
  | x :: l' => if rr_ttl rr <=? rr_ttl x then rr :: l else x :: insert_rr rr l'
  end.

Definition set_ttl (ttl : Z) (rr : t_rr) : t_rr :=
  {| rr_name := rr_name rr; rr_type := rr_type rr; rr_class := rr_class rr;
     rr_ttl := ttl; rdata := rdata rr |}.

#[export] Instance ldns : Ldns := {|
  xmalloc := fun n => repeat xff (Z.to_nat n);
  base64_decode := fun d _ => (d, buflen d);
  sig2verifybytes := fun rr buf off _ =>
    (write_at buf off (sig_fields rr), buflen (sig_fields rr));
  rrset_sort := fun l => fold_right insert_rr [] l;
  rrset_set_ttl := fun l ttl => map (set_ttl ttl) l;
  rrset2wire := fun l buf off _ =>
    (write_at buf off (rrset_wire l), buflen (rrset_wire l));
  rdata2uint32 := fun rd => be2Z (rd_data rd);
  rdata2uint8 := fun rd => be2Z (rd_data rd);
  namebyint := fun _ => "?"
|}.

Definition rd (bs : list byte) : t_rdata :=
  {| rd_data := bs; rd_length := buflen bs |}.

Definition rr (ttl : Z) (fields : list (list byte)) : t_rr :=
  {| rr_name := []; rr_type := 0; rr_class := 1; rr_ttl := ttl;
     rdata := map rd fields |}.

(** An RRSIG with algorithm field [alg], original TTL 3600 and signature
    [sig]. *)
Definition rrsig_of (alg : byte) (sig : list byte) : t_rr :=
  rr 3600 [[x00; x01]; [alg]; [x02]; [x00; x00; x0e; x10]; [x00]; [x00];
           [x00; x07]; [x00]; sig].

(** A DNSKEY with algorithm field [alg] and key [key]. *)
Definition dnskey_of (alg : byte) (key : list byte) : t_rr :=
  rr 3600 [[x01; x00]; [x03]; [alg]; key].

(** An RRset of two records. *)
Definition rrset2 : list t_rr := [rr 300 [[x0a; x00; x00; x02]]; rr 60 [[x0a; x00; x00; x01]]].

(** A DSA key blob with parameter [T = t]. *)
Definition dsa_key (t : byte) : list byte :=
  t :: repeat x01 (20 + 3 * Z.to_nat (64 + byte_val t * 8)).

(** A DSA signature blob: [T], [R], [S]. *)
Definition dsa_sig (t r s : byte) : list byte :=
  t :: repeat x00 19 ++ [r] ++ repeat x00 19 ++ [s].

End Demo.


(** ** Basic facts *)

Lemma byte_val_range (b : byte) : 0 <= byte_val b < 256.
Proof.
  unfold byte_val. pose proof (Byte.to_N_bounded b). lia.
Qed.

Lemma to_int_small (z : Z) : 0 <= z < 2 ^ 31 -> to_int z = z.
Proof.
  intros H. unfold to_int.
  rewrite Z.mod_small by lia.
  destruct (z <? 2 ^ 31) eqn:E; [reflexivity | apply Z.ltb_ge in E; lia].
Qed.

Lemma to_uint_small (z : Z) : 0 <= z < 2 ^ 32 -> to_uint z = z.
Proof. intros H. unfold to_uint. apply Z.mod_small. lia. Qed.

Lemma to_int_spec (z : Z) :
  exists k, to_int z = z + k * 2 ^ 32 /\ - 2 ^ 31 <= to_int z < 2 ^ 31.
Proof.
  unfold to_int. pose proof (Z.mod_pos_bound z (2 ^ 32) ltac:(lia)) as Hb.
  pose proof (Z.mod_eq z (2 ^ 32) ltac:(lia)) as He.
  destruct (Z.ltb_spec (z mod 2 ^ 32) (2 ^ 31)).
  - exists (- (z / 2 ^ 32)). lia.
  - exists (- (z / 2 ^ 32) - 1). lia.
Qed.

Lemma to_uint_spec (z : Z) :
  exists k, to_uint z = z + k * 2 ^ 32 /\ 0 <= to_uint z < 2 ^ 32.
Proof.
  unfold to_uint. pose proof (Z.mod_pos_bound z (2 ^ 32) ltac:(lia)) as Hb.
  pose proof (Z.mod_eq z (2 ^ 32) ltac:(lia)) as He.
  exists (- (z / 2 ^ 32)). lia.
Qed.

Lemma to_uint_range (z : Z) : 0 <= to_uint z < 2 ^ 32.
Proof. unfold to_uint. apply Z.mod_pos_bound. lia. Qed.

Lemma load_range_some b off len bs :
  load_range b off len = Some bs ->
  0 <= off /\ 0 <= len /\ off + len <= buflen b /\ buflen bs = len /\
  bs = firstn (Z.to_nat len) (skipn (Z.to_nat off) b).
Proof.
  unfold load_range, buflen.
  destruct (off <? 0) eqn:E1; [discriminate|].
  destruct (len <? 0) eqn:E2; [discriminate|].
  destruct (_ <? off + len) eqn:E3; [discriminate|].
  cbn [orb]. intros [= <-].
  apply Z.ltb_ge in E1, E2, E3.
  repeat split; try lia.
  rewrite length_firstn, length_skipn. lia.
Qed.

Lemma load_range_fits b off len :
  0 <= off -> 0 <= len -> off + len <= buflen b ->
  load_range b off len = Some (firstn (Z.to_nat len) (skipn (Z.to_nat off) b)).
Proof.
  intros H1 H2 H3. unfold load_range.
  destruct (off <? 0) eqn:E1; [apply Z.ltb_lt in E1; lia|].
  destruct (len <? 0) eqn:E2; [apply Z.ltb_lt in E2; lia|].
  destruct (_ <? off + len) eqn:E3; [apply Z.ltb_lt in E3; lia|].
  reflexivity.
Qed.

Lemma load_range_all bs len :
  buflen bs = len -> load_range bs 0 len = Some bs.
Proof.
  intros H. rewrite load_range_fits; unfold buflen in *; try lia.
  cbn [Z.to_nat skipn]. rewrite firstn_all2 by lia. reflexivity.
Qed.

Lemma load_range_0_some bs len r :
  load_range bs 0 len = Some r -> len = buflen bs -> r = bs.
Proof.
  intros H E. rewrite load_range_all in H by congruence. congruence.
Qed.

(** *** Laws of the monad *)

Lemma bind_ret_l {A B} (a : A) (k : A -> M B) : bind (ret a) k = k a.
Proof. unfold bind, ret. destruct (k a). reflexivity. Qed.

Lemma bind_deref_some {A B} (a : A) (k : A -> M B) :
  bind (deref (Some a)) k = k a.
Proof. apply bind_ret_l. Qed.

Lemma bind_deref_none {A B} (k : A -> M B) :
  bind (deref None) k = ([], Fault).
Proof. reflexivity. Qed.

Lemma bind_emit {B} (e : event) (k : unit -> M B) :
  bind (emit e) k = (e :: trace (k tt), result (k tt)).
Proof. unfold bind, emit, trace, result. destruct (k tt). reflexivity. Qed.

Lemma bind_assoc {A B C} (m : M A) (f : A -> M B) (g : B -> M C) :
  bind (bind m f) g = bind m (fun a => bind (f a) g).
Proof.
  destruct m as [t [a| |]]; cbn; try reflexivity.
  destruct (f a) as [t1 [b| |]]; cbn; try reflexivity.
  destruct (g b) as [t2 o]. rewrite app_assoc. reflexivity.
Qed.

Section Properties.

Context {K : Constants} {SSL : OpenSSL}.

Lemma bind_BN_bin2bn {B} b off len (k : Z -> M B) :
  bind (BN_bin2bn b off len) k =
  match load_range b off len with
  | Some bs => k (be2Z bs)
  | None => ([], Fault)
  end.
Proof.
  unfold BN_bin2bn. rewrite bind_assoc.
  destruct (load_range b off len).
  - rewrite bind_deref_some, bind_ret_l. reflexivity.
  - reflexivity.
Qed.

Lemma bind_memcpy_from {B} b off len (k : buffer -> M B) :
  bind (memcpy_from b off len) k =
  match load_range b off len with
  | Some bs => k bs
  | None => ([], Fault)
  end.
Proof.
  unfold memcpy_from. destruct (load_range b off len).
  - apply bind_deref_some.
  - reflexivity.
Qed.

Lemma bind_call_SHA1 {B} buf len (k : option (list byte) -> M B) :
  bind (call_SHA1 buf len) k =
  match load_range buf 0 len with
  | Some d => (Ev_SHA1 d :: trace (k (SHA1 d)), result (k (SHA1 d)))
  | None => ([], Fault)
  end.
Proof.
  unfold call_SHA1. rewrite bind_assoc.
  destruct (load_range buf 0 len).
  - rewrite bind_deref_some, bind_assoc, bind_emit, bind_ret_l. reflexivity.
  - reflexivity.
Qed.

Lemma bind_call_MD5 {B} buf len (k : option (list byte) -> M B) :
  bind (call_MD5 buf len) k =
  match load_range buf 0 len with
  | Some d => (Ev_MD5 d :: trace (k (MD5 d)), result (k (MD5 d)))
  | None => ([], Fault)
  end.
Proof.
  unfold call_MD5. rewrite bind_assoc.
  destruct (load_range buf 0 len).
  - rewrite bind_deref_some, bind_assoc, bind_emit, bind_ret_l. reflexivity.
  - reflexivity.
Qed.

Lemma bind_call_DSA_do_verify {B} h n sg d (k : Z -> M B) :
  bind (call_DSA_do_verify h n sg d) k =
  (Ev_DSA_do_verify h n sg d :: trace (k (DSA_do_verify h n sg d)),
   result (k (DSA_do_verify h n sg d))).
Proof.
  unfold call_DSA_do_verify.
  rewrite bind_assoc, bind_emit, bind_ret_l. reflexivity.
Qed.

Lemma bind_call_RSA_verify {B} ty m n sb sl rsa (k : Z -> M B) :
  bind (call_RSA_verify ty m n sb sl rsa) k =
  (Ev_RSA_verify ty m n sb sl rsa :: trace (k (RSA_verify ty m n sb sl rsa)),
   result (k (RSA_verify ty m n sb sl rsa))).
Proof.
  unfold call_RSA_verify.
  rewrite bind_assoc, bind_emit, bind_ret_l. reflexivity.
Qed.

Lemma report_eq fmt res :
  (if res =? 1 then ret RET_SUC
   else if res =? 0 then ret RET_FAIL
   else warning fmt [AInt res] ;;; emit Ev_ERR_print_errors_fp ;;; ret RET_FAIL)
  = report fmt res.
Proof. reflexivity. Qed.

Lemma report_result fmt res :
  result (report fmt res) = Return (if res =? 1 then RET_SUC else RET_FAIL).
Proof.
  unfold report. destruct (res =? 1); [reflexivity|].
  destruct (res =? 0); reflexivity.
Qed.

Lemma report_trace_quiet fmt res e :
  In e (trace (report fmt res)) ->
  is_verify_call e = false /\ is_digest_call e = false.
Proof.
  unfold report. destruct (res =? 1); [intros []|].
  destruct (res =? 0); [intros []|].
  cbn. intros [<-|[<-|[]]]; split; reflexivity.
Qed.

Lemma dsa_offsets (t : byte) :
  byte_val t <= 8 ->
  let nl := numberlength_of (byte_val t) in
  to_int (64 + byte_val t * 8) = nl /\
  to_int (1 + 20) = 21 /\
  to_int (21 + nl) = 21 + nl /\
  to_int (21 + nl + nl) = 21 + nl + nl.
Proof.
  intros H nl. pose proof (byte_val_range t). unfold numberlength_of in nl.
  subst nl. repeat split; apply to_int_small; lia.
Qed.

Lemma verify_rrsig_dsa_run vb len sb sl kb kl :
  dsa_run vb len sb kb (verify_rrsig_dsa vb len sb sl kb kl).
Proof.
  unfold verify_rrsig_dsa.
  destruct (load kb 0) as [t|] eqn:Ht;
    [rewrite bind_deref_some
    | rewrite bind_deref_none; now apply dsa_run_no_key].
  destruct (8 <? byte_val t) eqn:HT.
  { apply Z.ltb_lt in HT. unfold warning. rewrite bind_emit.
    eapply dsa_run_unsupported; eassumption. }
  assert (Hkey : spec_dsa_key kb =
            match load_range kb 1 20,
                  load_range kb 21 (numberlength_of (byte_val t)),
                  load_range kb (21 + numberlength_of (byte_val t))
                    (numberlength_of (byte_val t)),
                  load_range kb (21 + numberlength_of (byte_val t)
                                   + numberlength_of (byte_val t))
                    (numberlength_of (byte_val t)) with
            | Some q, Some p, Some g, Some y =>
                Some {| dsa_p := be2Z p; dsa_q := be2Z q;
                        dsa_g := be2Z g; dsa_pub_key := be2Z y |}
            | _, _, _, _ => None
            end).
  { unfold spec_dsa_key. rewrite Ht. cbv zeta. rewrite HT. reflexivity. }
  apply Z.ltb_ge in HT.
  destruct (dsa_offsets t HT) as (E1 & E2 & E3 & E4).
  cbv zeta. rewrite E1, E2, E3, E4.
  rewrite bind_BN_bin2bn.
  destruct (load_range kb 1 20) as [q|];
    [|now eapply dsa_run_short_key; eauto].
  rewrite bind_BN_bin2bn.
  destruct (load_range kb 21 _) as [p|];
    [|now eapply dsa_run_short_key; eauto].
  rewrite bind_BN_bin2bn.
  destruct (load_range kb (21 + _) _) as [g|];
    [|now eapply dsa_run_short_key; eauto].
  rewrite bind_BN_bin2bn.
  destruct (load_range kb (21 + _ + _) _) as [y|];
    [|now eapply dsa_run_short_key; eauto].
  destruct (load sb 0) as [s|] eqn:Hs;
    [rewrite bind_deref_some
    | rewrite bind_deref_none; eapply dsa_run_short_sig; eauto].
  destruct (byte_val s =? byte_val t) eqn:HTs; cbn [negb].
  2:{ apply Z.eqb_neq in HTs. unfold warning. rewrite bind_emit.
      eapply dsa_run_mismatch; eassumption. }
  apply Z.eqb_eq in HTs.
  rewrite bind_BN_bin2bn.
  destruct (load_range sb 1 20) as [r|] eqn:Hr;
    [|eapply dsa_run_short_sig; eauto 6].
  rewrite bind_BN_bin2bn.
  destruct (load_range sb 21 20) as [s'|] eqn:Hs';
    [|eapply dsa_run_short_sig; eauto 6].
  rewrite bind_call_SHA1.
  destruct (load_range vb 0 len) as [data|] eqn:Hd.
  2:{ eapply dsa_run_fault_digest; eassumption. }
  rewrite bind_call_DSA_do_verify, report_eq.
  eapply dsa_run_verify; eassumption.
Qed.

(** *** The RSA key blob *)

Lemma spec_rsa_header_range kb el off :
  spec_rsa_header kb = Some (el, off) ->
  0 <= el < 65536 /\ (off = 1 \/ off = 3).
Proof.
  unfold spec_rsa_header.
  destruct (load kb 0) as [b0|]; [|discriminate].
  destruct (byte_val b0 =? 0).
  - destruct (load kb 1) as [hi|]; [|discriminate].
    destruct (load kb 2) as [lo|]; [|discriminate].
    intros Heq. injection Heq as E1 E2.
    pose proof (byte_val_range hi). pose proof (byte_val_range lo). lia.
  - intros Heq. injection Heq as E1 E2. pose proof (byte_val_range b0). lia.
Qed.

Lemma decode_rsa_key_no_header kb kl :
  spec_rsa_header kb = None -> decode_rsa_key kb kl = ([], Fault).
Proof.
  unfold spec_rsa_header, decode_rsa_key.
  destruct (load kb 0) as [b0|]; [|reflexivity].
  rewrite bind_deref_some.
  destruct (byte_val b0 =? 0); [|discriminate].
  destruct (load kb 1) as [hi|]; [|reflexivity].
  destruct (load kb 2) as [lo|]; [|reflexivity].
  discriminate.
Qed.

Lemma decode_rsa_key_header kb kl el off :
  spec_rsa_header kb = Some (el, off) ->
  decode_rsa_key kb kl =
  match load_range kb off el with
  | None => ([], Fault)
  | Some e =>
      match load_range kb (off + el) (to_uint (kl - (off + el))) with
      | None => ([], Fault)
      | Some mb =>
          match load_range mb 0 (to_int (to_int kl - (off + el))) with
          | None => ([], Fault)
          | Some nb => ([], Return {| rsa_n := be2Z nb; rsa_e := be2Z e |})
          end
      end
  end.
Proof.
  intros Hh. pose proof (spec_rsa_header_range _ _ _ Hh) as [Hel Hoff].
  assert (decode_rsa_key kb kl =
          (exponent_bytes <- memcpy_from kb off (to_uint el) ;;
           exponent <- BN_bin2bn exponent_bytes 0 el ;;
           let offset := to_int (off + el) in
           modulus_bytes <- memcpy_from kb offset (to_uint (kl - offset)) ;;
           modulus <- BN_bin2bn modulus_bytes 0 (to_int (to_int kl - offset)) ;;
           ret {| rsa_n := modulus; rsa_e := exponent |})) as ->.
  { unfold spec_rsa_header in Hh. unfold decode_rsa_key.
    destruct (load kb 0) as [b0|]; [|discriminate].
    rewrite bind_deref_some.
    destruct (byte_val b0 =? 0).
    - destruct (load kb 1) as [hi|]; [|discriminate].
      destruct (load kb 2) as [lo|]; [|discriminate].
      injection Hh as <- <-.
      rewrite !bind_deref_some, bind_ret_l. cbn [fst snd].
      pose proof (byte_val_range hi). pose proof (byte_val_range lo).
      unfold ntohs. rewrite to_int_small by lia.
      reflexivity.
    - injection Hh as <- <-. rewrite bind_ret_l. cbn [fst snd].
      pose proof (byte_val_range b0).
      rewrite to_int_small by lia. reflexivity. }
  cbv zeta.
  rewrite to_uint_small by lia.
  rewrite (to_int_small (off + el)) by lia.
  rewrite bind_memcpy_from.
  destruct (load_range kb off el) as [e|] eqn:He; [|reflexivity].
  rewrite bind_BN_bin2bn.
  apply load_range_some in He as (_ & _ & _ & Hlen & _).
  rewrite (load_range_all e el Hlen).
  rewrite bind_memcpy_from.
  destruct (load_range kb (off + el) _) as [mb|]; [|reflexivity].
  rewrite bind_BN_bin2bn.
  destruct (load_range mb 0 _) as [nb|]; reflexivity.
Qed.

(** [decode_rsa_key] prints nothing and does not leave the process. *)
Lemma decode_rsa_key_shape kb kl :
  decode_rsa_key kb kl = ([], Fault) \/
  exists rsa, decode_rsa_key kb kl = ([], Return rsa).
Proof.
  destruct (spec_rsa_header kb) as [[el off]|] eqn:Hh.
  - rewrite (decode_rsa_key_header _ _ _ _ Hh).
    destruct (load_range kb off el); [|now left].
    destruct (load_range kb (off + el) _) as [mb|]; [|now left].
    destruct (load_range mb 0 _); [|now left].
    right. eexists. reflexivity.
  - left. now apply decode_rsa_key_no_header.
Qed.

(** What the code decodes is the key of the document, and the modulus
    length is then not negative. *)
Lemma decode_rsa_key_sound kb kl rsa :
  0 <= kl < 2 ^ 32 ->
  decode_rsa_key kb kl = ([], Return rsa) ->
  spec_rsa_key kb kl = Some rsa /\
  exists ml, spec_modulus_length kb kl = Some ml /\ 0 <= ml.
Proof.
  intros Hkl H.
  destruct (spec_rsa_header kb) as [[el off]|] eqn:Hh.
  2:{ rewrite decode_rsa_key_no_header in H by assumption. discriminate. }
  pose proof (spec_rsa_header_range _ _ _ Hh) as [Hel Hoff].
  rewrite (decode_rsa_key_header _ _ _ _ Hh) in H.
  unfold spec_rsa_key, spec_modulus_length. rewrite Hh.
  destruct (load_range kb off el) as [e|] eqn:He; [|discriminate].
  destruct (load_range kb (off + el) _) as [mb|] eqn:Hm; [|discriminate].
  destruct (load_range mb 0 _) as [nb|] eqn:Hn; [|discriminate].
  injection H as <-.
  apply load_range_some in Hm as Hm'. destruct Hm' as (_ & _ & Hfit & Hlm & _).
  apply load_range_some in Hn as Hn'. destruct Hn' as (_ & Hn0 & Hnfit & _ & _).
  destruct (to_int_spec kl) as (k1 & Ek1 & Rk1).
  destruct (to_int_spec (to_int kl - (off + el))) as (k2 & Ek2 & Rk2).
  destruct (to_uint_spec (kl - (off + el))) as (k3 & Ek3 & Rk3).
  assert (Hn' : to_int (to_int kl - (off + el)) = buflen mb) by lia.
  assert (Hge : to_uint (kl - (off + el)) = kl - (off + el)) by lia.
  rewrite Hge in Hm, Hlm. rewrite Hm.
  rewrite (load_range_0_some _ _ _ Hn Hn').
  split; [reflexivity|]. eexists. split; [reflexivity|]. lia.
Qed.

Lemma decode_rsa_key_complete kb kl rsa :
  0 <= kl < 2 ^ 31 ->
  spec_rsa_key kb kl = Some rsa ->
  decode_rsa_key kb kl = ([], Return rsa).
Proof.
  intros Hkl. unfold spec_rsa_key.
  destruct (spec_rsa_header kb) as [[el off]|] eqn:Hh; [|discriminate].
  pose proof (spec_rsa_header_range _ _ _ Hh) as [Hel Hoff].
  rewrite (decode_rsa_key_header _ _ _ _ Hh).
  destruct (load_range kb off el) as [e|]; [|discriminate].
  destruct (load_range kb (off + el) (kl - _)) as [mb|] eqn:Hm; [|discriminate].
  intros [= <-].
  apply load_range_some in Hm as Hm'. destruct Hm' as (_ & H0 & _ & Hlm & _).
  rewrite to_uint_small by lia. rewrite Hm.
  rewrite (to_int_small kl) by lia.
  rewrite to_int_small by lia.
  rewrite (load_range_all mb _ Hlm). reflexivity.
Qed.

(** *** The runs of the RSA verifiers *)

Lemma bind_fault {A B} (k : A -> M B) : bind ([], Fault) k = ([], Fault).
Proof. reflexivity. Qed.

Lemma verify_rrsig_rsasha1_run vb len sb sl kb kl :
  rsa_run Ev_SHA1 SHA1 NID_sha1 20 "Error digesting" vb len sb sl kb kl
    (verify_rrsig_rsasha1 vb len sb sl kb kl).
Proof.
  unfold verify_rrsig_rsasha1.
  destruct (decode_rsa_key_shape kb kl) as [E|[rsa E]]; rewrite E.
  { rewrite bind_fault. now apply rsa_run_fault_key. }
  change (@pair (list event) (outcome RSA) [] (Return rsa)) with (ret rsa).
  rewrite bind_ret_l, bind_call_SHA1.
  destruct (load_range vb 0 len) as [data|] eqn:Hd;
    [|eapply rsa_run_fault_digest; eassumption].
  destruct (SHA1 data) as [dg|] eqn:Hdg.
  - rewrite bind_ret_l, bind_call_RSA_verify, report_eq.
    eapply rsa_run_verify; eassumption.
  - cbn. eapply rsa_run_exit; eassumption.
Qed.

Lemma verify_rrsig_rsamd5_run vb len sb sl kb kl :
  rsa_run Ev_MD5 MD5 NID_md5 16 "Error digesting\n" vb len sb sl kb kl
    (verify_rrsig_rsamd5 vb len sb sl kb kl).
Proof.
  unfold verify_rrsig_rsamd5.
  destruct (decode_rsa_key_shape kb kl) as [E|[rsa E]]; rewrite E.
  { rewrite bind_fault. now apply rsa_run_fault_key. }
  change (@pair (list event) (outcome RSA) [] (Return rsa)) with (ret rsa).
  rewrite bind_ret_l, bind_call_MD5.
  destruct (load_range vb 0 len) as [data|] eqn:Hd;
    [|eapply rsa_run_fault_digest; eassumption].
  destruct (MD5 data) as [dg|] eqn:Hdg.
  - rewrite bind_ret_l, bind_call_RSA_verify, report_eq.
    eapply rsa_run_verify; eassumption.
  - cbn. eapply rsa_run_exit; eassumption.
Qed.

(** *** [verify_rrsig] *)

Context {L : Ldns}.

Lemma signed_buffer_eq rrset rrsig rd3 :
  nth_error (rdata rrsig) 3 = Some rd3 ->
  exists vb len, signed_buffer rrset rrsig = ([], Return (vb, len)).
Proof.
  intros H3. unfold signed_buffer, rdata_at.
  destruct (sig2verifybytes _ _ _ _) as [vb1 n1].
  rewrite H3, bind_deref_some.
  destruct (rrset2wire _ _ _ _) as [vb2 n2].
  eexists _, _. reflexivity.
Qed.

Lemma signed_buffer_fault rrset rrsig :
  nth_error (rdata rrsig) 3 = None ->
  signed_buffer rrset rrsig = ([], Fault).
Proof.
  intros H3. unfold signed_buffer, rdata_at.
  destruct (sig2verifybytes _ _ _ _) as [vb1 n1].
  rewrite H3. reflexivity.
Qed.

(** The run of [verify_rrsig] once the four rdata fields it follows are
    there: the run of the verifier its [switch] selects, or the default
    case. *)
Lemma verify_rrsig_dispatch rrset rrsig dnskey rd8 rd1 kd vb len :
  nth_error (rdata rrsig) 8 = Some rd8 ->
  signed_buffer rrset rrsig = ([], Return (vb, len)) ->
  nth_error (rdata dnskey) 3 = Some kd ->
  nth_error (rdata rrsig) 1 = Some rd1 ->
  let sg := base64_decode (rd_data rd8) (to_int (rd_length rd8)) in
  let ky := base64_decode (rd_data kd) (to_int (rd_length kd)) in
  let alg := rdata2uint8 rd1 in
  verify_rrsig rrset rrsig dnskey =
  if alg =? ALG_DSA then
    verify_rrsig_dsa vb len (fst sg) (to_uint (snd sg))
                     (fst ky) (to_uint (snd ky))
  else if alg =? ALG_RSASHA1 then
    verify_rrsig_rsasha1 vb len (fst sg) (to_uint (snd sg))
                         (fst ky) (to_uint (snd ky))
  else if alg =? ALG_RSAMD5 then
    verify_rrsig_rsamd5 vb len (fst sg) (to_uint (snd sg))
                        (fst ky) (to_uint (snd ky))
  else
    ([Ev_warning "unknown or unimplemented algorithm (alg %s nr %d)"
        [AStr (namebyint alg); AInt alg];
      Ev_print_rr rrsig FOLLOW],
     Exit EXIT_FAILURE).
Proof.
  intros H8 Hb Hk H1 sg ky alg. unfold verify_rrsig, rdata_at.
  rewrite H8, bind_deref_some.
  fold sg. destruct sg as [sigbuf n]. rewrite Hb.
  change (@pair (list event) (outcome (buffer * Z)) [] (Return (vb, len)))
    with (ret (vb, len)).
  rewrite bind_ret_l. cbn [fst snd].
  rewrite Hk, bind_deref_some.
  fold ky. destruct ky as [key_bytes n']. cbn [fst snd].
  destruct (Z.ltb_spec (to_uint n') 0) as [Hneg|_].
  { pose proof (to_uint_range n'). lia. }
  rewrite H1, bind_deref_some. fold alg.
  destruct (alg =? ALG_DSA); [reflexivity|].
  destruct (alg =? ALG_RSASHA1); [reflexivity|].
  destruct (alg =? ALG_RSAMD5); [reflexivity|].
  reflexivity.
Qed.

End Properties.

(** ** Properties of the design document *)

Section Claims.

Context {K : Constants} {SSL : OpenSSL} {L : Ldns}.

Lemma reported_verify_call e r : reported e = Some r -> is_verify_call e = true.
Proof. destruct e; cbn; congruence. Qed.

Lemma report_not_reported fmt res r :
  ~ In (Some r) (map reported (trace (report fmt res))).
Proof.
  intros H. apply in_map_iff in H as (e & He & Hin).
  apply report_trace_quiet in Hin as [Hv _].
  apply reported_verify_call in He. congruence.
Qed.

Lemma dsa_run_reported vb len sb kb m r :
  dsa_run vb len sb kb m ->
  In (Some r) (map reported (trace m)) ->
  result m = Return (if r =? 1 then RET_SUC else RET_FAIL).
Proof.
  intros R. destruct R; cbn [trace result fst snd map reported In];
    try (intros Hin; repeat destruct Hin as [Hin|Hin];
         try discriminate Hin; tauto).
  intros [Hin|[Hin|Hin]]; try discriminate Hin.
  - injection Hin as <-. apply report_result.
  - now apply report_not_reported in Hin.
Qed.

Lemma dsa_run_success vb len sb kb m :
  RET_SUC <> RET_FAIL ->
  dsa_run vb len sb kb m ->
  result m = Return RET_SUC ->
  In (Some 1) (map reported (trace m)).
Proof.
  intros Hd R. destruct R; cbn [trace result fst snd map reported In];
    try discriminate; try (intros [= E]; congruence).
  rewrite report_result. subst res.
  destruct (Z.eqb_spec (DSA_do_verify (SHA1 data) 20 sg d) 1) as [->|].
  - auto.
  - intros [= E]. congruence.
Qed.

Lemma rsa_run_reported dev dg nid dlen emsg vb len sb sl kb kl m r :
  (forall d, reported (dev d) = None) ->
  rsa_run dev dg nid dlen emsg vb len sb sl kb kl m ->
  In (Some r) (map reported (trace m)) ->
  result m = Return (if r =? 1 then RET_SUC else RET_FAIL).
Proof.
  intros Hdev R. destruct R; cbn [trace result fst snd map reported In];
    rewrite ?Hdev;
    try (intros Hin; repeat destruct Hin as [Hin|Hin];
         try discriminate Hin; tauto).
  intros [Hin|[Hin|Hin]]; try discriminate Hin.
  - injection Hin as <-. apply report_result.
  - now apply report_not_reported in Hin.
Qed.

Lemma rsa_run_success dev dg nid dlen emsg vb len sb sl kb kl m :
  RET_SUC <> RET_FAIL ->
  rsa_run dev dg nid dlen emsg vb len sb sl kb kl m ->
  result m = Return RET_SUC ->
  In (Some 1) (map reported (trace m)).
Proof.
  intros Hd R. destruct R; cbn [trace result fst snd map reported In];
    try discriminate; try (intros [= E]; congruence).
  rewrite report_result. subst res.
  destruct (Z.eqb_spec (RSA_verify nid (Some dg0) dlen sb sl rsa) 1) as [->|].
  - auto.
  - intros [= E]. congruence.
Qed.

(** C1 (as amended).  When the RRSIG's algorithm is none of DSA, RSA/SHA-1
    and RSA/MD5, [verify_rrsig] prints a warning and the RRSIG and ends
    the process with [EXIT_FAILURE]: it calls no verifier and returns no
    value, neither the one for an invalid signature nor an error. *)
Theorem C1_unsupported_algorithm_exits rrset rrsig dnskey rd8 rd3 rd1 kd :
  nth_error (rdata rrsig) 8 = Some rd8 ->
  nth_error (rdata rrsig) 3 = Some rd3 ->
  nth_error (rdata rrsig) 1 = Some rd1 ->
  nth_error (rdata dnskey) 3 = Some kd ->
  rdata2uint8 rd1 <> ALG_DSA ->
  rdata2uint8 rd1 <> ALG_RSASHA1 ->
  rdata2uint8 rd1 <> ALG_RSAMD5 ->
  verify_rrsig rrset rrsig dnskey =
  ([Ev_warning "unknown or unimplemented algorithm (alg %s nr %d)"
      [AStr (namebyint (rdata2uint8 rd1)); AInt (rdata2uint8 rd1)];
    Ev_print_rr rrsig FOLLOW],
   Exit EXIT_FAILURE).
Proof.
  intros H8 H3 H1 Hk Hd Hs Hm.
  destruct (signed_buffer_eq rrset rrsig rd3 H3) as (vb & len & Hb).
  rewrite (verify_rrsig_dispatch _ _ _ _ _ _ _ _ H8 Hb Hk H1). cbv zeta.
  destruct (Z.eqb_spec (rdata2uint8 rd1) ALG_DSA); [contradiction|].
  destruct (Z.eqb_spec (rdata2uint8 rd1) ALG_RSASHA1); [contradiction|].
  destruct (Z.eqb_spec (rdata2uint8 rd1) ALG_RSAMD5); [contradiction|].
  reflexivity.
Qed.

(** C2 (as amended).  In each of the three verifiers, whatever the
    primitive reports other than 1 - 0 for a signature that does not
    match, anything else for an internal error - the verifier returns
    [RET_FAIL]: the two are the same value.  The verifier returns
    [RET_SUC] exactly when the primitive was called and reported 1. *)
Theorem C2_primitive_result_mapping (p : path) vb len sb sl kb kl :
  RET_SUC <> RET_FAIL ->
  let m := dispatch_verifier p vb len sb sl kb kl in
  (forall r, In (Some r) (map reported (trace m)) ->
             result m = Return (if r =? 1 then RET_SUC else RET_FAIL)) /\
  (result m = Return RET_SUC <-> In (Some 1) (map reported (trace m))).
Proof.
  intros Hd m.
  assert (Hrep : forall r, In (Some r) (map reported (trace m)) ->
             result m = Return (if r =? 1 then RET_SUC else RET_FAIL)).
  { subst m. destruct p; cbn [dispatch_verifier]; intros r.
    - apply (dsa_run_reported _ _ _ _ _ _ (verify_rrsig_dsa_run _ _ _ sl _ kl)).
    - intros Hin.
      eapply rsa_run_reported;
        [ | apply verify_rrsig_rsasha1_run | exact Hin]; reflexivity.
    - intros Hin.
      eapply rsa_run_reported;
        [ | apply verify_rrsig_rsamd5_run | exact Hin]; reflexivity. }
  split; [exact Hrep|]. split.
  - subst m. destruct p; cbn [dispatch_verifier].
    + apply (dsa_run_success _ _ _ _ _ Hd (verify_rrsig_dsa_run _ _ _ sl _ kl)).
    + intros Hs. eapply rsa_run_success;
        [exact Hd | apply verify_rrsig_rsasha1_run | exact Hs].
    + intros Hs. eapply rsa_run_success;
        [exact Hd | apply verify_rrsig_rsamd5_run | exact Hs].
  - intros H. apply Hrep in H. exact H.
Qed.

(** C3 (as amended).  [verify_rrsig] follows only the public-key field of
    the DNSKEY; it never reads the DNSKEY's algorithm field, so two
    DNSKEYs with the same public-key field give the same run whatever
    their algorithm fields are, and the verifier is chosen by the RRSIG's
    algorithm alone. *)
Theorem C3_dnskey_algorithm_not_read rrset rrsig dnskey dnskey' :
  nth_error (rdata dnskey) 3 = nth_error (rdata dnskey') 3 ->
  verify_rrsig rrset rrsig dnskey = verify_rrsig rrset rrsig dnskey'.
Proof.
  intros H. unfold verify_rrsig, rdata_at. rewrite H. reflexivity.
Qed.

(** *** Runs that reach the primitive *)

Lemma spec_dsa_key_T kb t d :
  load kb 0 = Some t -> spec_dsa_key kb = Some d -> byte_val t <= 8.
Proof.
  unfold spec_dsa_key. intros ->. cbv zeta.
  destruct (Z.ltb_spec 8 (byte_val t)); [discriminate|lia].
Qed.

Lemma spec_dsa_key_fits kb t :
  load kb 0 = Some t -> byte_val t <= 8 ->
  20 + 3 * numberlength_of (byte_val t) < buflen kb ->
  exists d, spec_dsa_key kb = Some d.
Proof.
  intros Ht HT Hlen. unfold spec_dsa_key. rewrite Ht. cbv zeta.
  destruct (Z.ltb_spec 8 (byte_val t)); [lia|].
  pose proof (byte_val_range t). unfold numberlength_of in *.
  rewrite !load_range_fits by lia. eexists. reflexivity.
Qed.

Lemma dsa_run_total vb len sb kb m t d s r s' data :
  dsa_run vb len sb kb m ->
  load kb 0 = Some t -> spec_dsa_key kb = Some d ->
  load sb 0 = Some s -> byte_val s = byte_val t ->
  load_range sb 1 20 = Some r -> load_range sb 21 20 = Some s' ->
  load_range vb 0 len = Some data ->
  let sg := {| sig_r := be2Z r; sig_s := be2Z s' |} in
  let res := DSA_do_verify (SHA1 data) 20 sg d in
  m = (Ev_SHA1 data :: Ev_DSA_do_verify (SHA1 data) 20 sg d
         :: trace (report "internal error when verifying: %d" res),
       result (report "internal error when verifying: %d" res)).
Proof.
  intros R Ht Hd Hs HT Hr Hs' Hdata.
  pose proof (spec_dsa_key_T _ _ _ Ht Hd).
  destruct R; try congruence.
  - assert (t0 = t) by congruence. subst. lia.
  - assert (t0 = t) by congruence. subst.
    match goal with
    | HH : _ \/ _ |- _ =>
        destruct HH as [HH|(s1 & Hs1 & HT1 & [HH|HH])]
    end; congruence.
  - intros sg0 res0. subst sg res sg0 res0. congruence.
Qed.

Lemma dsa_run_call_key vb len sb kb m h n sg d :
  dsa_run vb len sb kb m ->
  In (Ev_DSA_do_verify h n sg d) (trace m) ->
  spec_dsa_key kb = Some d.
Proof.
  intros R. destruct R; cbn [trace fst In];
    try (intros Hin; repeat destruct Hin as [Hin|Hin];
         try discriminate Hin; tauto).
  intros [Hin|[Hin|Hin]]; try discriminate Hin.
  - injection Hin as _ _ _ <-. assumption.
  - apply report_trace_quiet in Hin as [Hv _]. discriminate Hv.
Qed.

Lemma dsa_run_mismatch_quiet vb len sb kb m t s :
  dsa_run vb len sb kb m ->
  load kb 0 = Some t -> load sb 0 = Some s -> byte_val s <> byte_val t ->
  existsb is_verify_call (trace m) = false /\
  (result m = Fault \/ result m = Return RET_FAIL) /\
  (forall d, spec_dsa_key kb = Some d ->
     m = ([Ev_warning "Values for T are different in key and signature, verification of DSA sig failed" []],
          Return RET_FAIL)).
Proof.
  intros R Ht Hs Hne.
  destruct R; cbn [trace result fst snd existsb is_verify_call orb];
    try (repeat split; auto; intros; congruence).
  - repeat split; auto. intros d Hd.
    pose proof (spec_dsa_key_T _ _ _ Ht Hd).
    assert (t0 = t) by congruence. subst. lia.
  - exfalso.
    match goal with
    | HH : _ \/ _ |- _ =>
        destruct HH as [HH|(s1 & Hs1 & HT1 & _)]
    end; congruence.
Qed.

Lemma rsa_run_total dev dg nid dlen emsg vb len sb sl kb kl m rsa data h :
  rsa_run dev dg nid dlen emsg vb len sb sl kb kl m ->
  decode_rsa_key kb kl = ([], Return rsa) ->
  load_range vb 0 len = Some data ->
  dg data = Some h ->
  In (Ev_RSA_verify nid (Some h) dlen sb sl rsa) (trace m).
Proof.
  intros R Hk Hd Hh. destruct R; try congruence.
  assert (rsa0 = rsa) by congruence.
  assert (data0 = data) by congruence. subst.
  assert (dg0 = h) by congruence. subst.
  cbn. auto.
Qed.

Lemma rsa_run_fault dev dg nid dlen emsg vb len sb sl kb kl m :
  rsa_run dev dg nid dlen emsg vb len sb sl kb kl m ->
  decode_rsa_key kb kl = ([], Fault) ->
  m = ([], Fault).
Proof. intros R Hk. destruct R; congruence. Qed.

Lemma rsa_run_call_key dev dg nid dlen emsg vb len sb sl kb kl m
    ty h n sb' sl' rsa :
  (forall d, is_verify_call (dev d) = false) ->
  rsa_run dev dg nid dlen emsg vb len sb sl kb kl m ->
  In (Ev_RSA_verify ty h n sb' sl' rsa) (trace m) ->
  decode_rsa_key kb kl = ([], Return rsa).
Proof.
  intros Hdev R. destruct R; cbn [trace fst In];
    try (intros Hin; repeat destruct Hin as [Hin|Hin];
         try discriminate Hin; try tauto;
         specialize (Hdev data); rewrite Hin in Hdev; discriminate Hdev).
  intros [Hin|[Hin|Hin]].
  - specialize (Hdev data); rewrite Hin in Hdev; discriminate Hdev.
  - injection Hin as _ _ _ _ _ <-. assumption.
  - apply report_trace_quiet in Hin as [Hv _]. discriminate Hv.
Qed.

(** The run of an RSA path, with the parameters of the path. *)
Lemma rsa_path_run (p : path) vb len sb sl kb kl :
  p <> Path_DSA ->
  exists dev emsg,
    (forall d, is_verify_call (dev d) = false) /\
    rsa_run dev (path_digest p) (path_nid p) (path_dlen p) emsg
      vb len sb sl kb kl (dispatch_verifier p vb len sb sl kb kl).
Proof.
  destruct p; intros Hp; [contradiction| |].
  - exists Ev_SHA1, "Error digesting". split; [reflexivity|].
    apply verify_rrsig_rsasha1_run.
  - exists Ev_MD5, "Error digesting\n". split; [reflexivity|].
    apply verify_rrsig_rsamd5_run.
Qed.

Lemma spec_rsa_key_zero_modulus kb kl el off :
  spec_rsa_header kb = Some (el, off) ->
  kl = off + el -> kl <= buflen kb ->
  exists rsa, spec_rsa_key kb kl = Some rsa /\ rsa_n rsa = 0.
Proof.
  intros Hh -> Hlen. unfold spec_rsa_key. rewrite Hh.
  pose proof (spec_rsa_header_range _ _ _ Hh) as [Hel Hoff].
  rewrite (load_range_fits kb off el) by lia.
  rewrite (load_range_fits kb (off + el)) by lia.
  eexists. split; [reflexivity|].
  cbn [rsa_n]. replace (off + el - (off + el)) with 0 by lia. reflexivity.
Qed.

(** C4 (as amended).  The RSA verifiers make no check of the modulus
    length.  When the computed modulus length is zero and the blob holds
    [keylen] bytes, the key decodes with modulus 0 and the RSA
    verification primitive is called with it.  When it is negative the
    call has undefined behaviour (the code copies from outside the blob
    or passes a negative length to [BN_bin2bn]): no decode error is
    returned, and no primitive is called. *)
Theorem C4_no_modulus_length_check (p : path) vb len sb sl kb kl ml :
  p <> Path_DSA ->
  0 <= kl < 2 ^ 32 ->
  spec_modulus_length kb kl = Some ml ->
  let m := dispatch_verifier p vb len sb sl kb kl in
  (ml = 0 -> kl <= buflen kb ->
   exists rsa,
     spec_rsa_key kb kl = Some rsa /\ rsa_n rsa = 0 /\
     forall data h,
       load_range vb 0 len = Some data -> path_digest p data = Some h ->
       In (Ev_RSA_verify (path_nid p) (Some h) (path_dlen p) sb sl rsa)
          (trace m)) /\
  (ml < 0 -> m = ([], Fault)).
Proof.
  intros Hp Hkl Hml m.
  destruct (rsa_path_run p vb len sb sl kb kl Hp) as (dev & emsg & Hdev & R).
  fold m in R.
  unfold spec_modulus_length in Hml.
  destruct (spec_rsa_header kb) as [[el off]|] eqn:Hh; [|discriminate].
  injection Hml as <-.
  pose proof (spec_rsa_header_range _ _ _ Hh) as [Hel Hoff].
  split.
  - intros H0 Hfit.
    destruct (spec_rsa_key_zero_modulus kb kl el off Hh ltac:(lia) Hfit)
      as (rsa & Hk & Hn).
    exists rsa. repeat split; try assumption.
    intros data h Hd Hdg.
    eapply rsa_run_total; try eassumption.
    apply decode_rsa_key_complete; [lia|assumption].
  - intros Hneg. eapply rsa_run_fault; [eassumption|].
    destruct (decode_rsa_key_shape kb kl) as [E|[rsa E]]; [assumption|].
    apply decode_rsa_key_sound in E as (_ & ml' & Hml' & Hpos); [|assumption].
    unfold spec_modulus_length in Hml'. rewrite Hh in Hml'.
    injection Hml' as <-. lia.
Qed.

(** C5 (as amended).  When the first byte of the DSA signature blob
    differs from the first byte of the key blob, the DSA verification
    primitive is never called, and the verifier either faults on a short
    key blob or returns [RET_FAIL]; when the key blob decodes, it prints
    a warning and returns [RET_FAIL], which is the value it also returns
    for a signature the primitive finds invalid. *)
Theorem C5_dsa_T_mismatch vb len sb sl kb kl t s :
  load kb 0 = Some t -> load sb 0 = Some s ->
  byte_val s <> byte_val t ->
  let m := verify_rrsig_dsa vb len sb sl kb kl in
  existsb is_verify_call (trace m) = false /\
  (result m = Fault \/ result m = Return RET_FAIL) /\
  (forall d, spec_dsa_key kb = Some d ->
     m = ([Ev_warning "Values for T are different in key and signature, verification of DSA sig failed" []],
          Return RET_FAIL)).
Proof.
  intros Ht Hs Hne m.
  exact (dsa_run_mismatch_quiet _ _ _ _ _ _ _
           (verify_rrsig_dsa_run vb len sb sl kb kl) Ht Hs Hne).
Qed.

(** C6.  The DSA verifier takes the first byte of the key blob as [T] and
    [64 + T*8] as the length of the numbers (64 for [T = 0], 128 for
    [T = 8]); for [T > 8] it returns [RET_FAIL] with the warning that
    the type is not implemented, before any primitive is called;
    otherwise the key it hands to the primitive is [Q] from the 20 bytes
    at offset 1, then [P], [G] and [Y] from the following three blocks
    of that length, each read as a big-endian unsigned integer - and it
    does hand over that key whenever the blob holds those bytes and the
    signature and the signed buffer can be read. *)
Theorem C6_dsa_key_decoding vb len sb sl kb kl t :
  load kb 0 = Some t ->
  let T := byte_val t in
  let m := verify_rrsig_dsa vb len sb sl kb kl in
  numberlength_of 0 = 64 /\ numberlength_of 8 = 128 /\
  (8 < T ->
   m = ([Ev_warning "DSA type > 8 not implemented, unable to verify signature" []],
        Return RET_FAIL)) /\
  (forall h n sg d,
     In (Ev_DSA_do_verify h n sg d) (trace m) ->
     T <= 8 /\ spec_dsa_key kb = Some d) /\
  (T <= 8 -> 20 + 3 * numberlength_of T < buflen kb ->
   exists d,
     spec_dsa_key kb = Some d /\
     forall s r s' data,
       load sb 0 = Some s -> byte_val s = T ->
       load_range sb 1 20 = Some r -> load_range sb 21 20 = Some s' ->
       load_range vb 0 len = Some data ->
       In (Ev_DSA_do_verify (SHA1 data) 20
             {| sig_r := be2Z r; sig_s := be2Z s' |} d) (trace m)).
Proof.
  intros Ht T m.
  pose proof (verify_rrsig_dsa_run vb len sb sl kb kl) as R. fold m in R.
  split; [reflexivity|]. split; [reflexivity|]. split; [|split].
  - intros HT. unfold m, verify_rrsig_dsa.
    rewrite Ht, bind_deref_some. fold T.
    destruct (Z.ltb_spec 8 T); [|lia].
    unfold warning. rewrite bind_emit. reflexivity.
  - intros h n sg d Hin.
    pose proof (dsa_run_call_key _ _ _ _ _ _ _ _ _ R Hin) as Hk.
    split; [|assumption]. exact (spec_dsa_key_T _ _ _ Ht Hk).
  - intros HT Hlen.
    destruct (spec_dsa_key_fits kb t Ht HT Hlen) as (d & Hd).
    exists d. split; [assumption|].
    intros s r s' data Hs HTs Hr Hs' Hdata.
    rewrite (dsa_run_total _ _ _ _ _ _ _ _ _ _ _ R Ht Hd Hs HTs Hr Hs' Hdata).
    cbn. auto.
Qed.

Lemma load_cons_0 (b : byte) (l : buffer) : load (b :: l) 0 = Some b.
Proof. reflexivity. Qed.

(** C7.  Both RSA verifiers hand the primitive the key the document
    describes: with a first byte of zero the exponent length is the
    big-endian integer of bytes 1-2 and the exponent starts at offset 3,
    otherwise the first byte is the exponent length and the exponent
    starts at offset 1; the bytes from the end of the exponent up to
    [keylen] are the modulus; both are read as big-endian unsigned
    integers.  They do hand over that key whenever it lies within the
    blob and the signed buffer can be digested.  A blob that begins
    00 01 00 has a 256-byte exponent, one that begins 03 a 3-byte
    exponent. *)
Theorem C7_rsa_key_decoding (p : path) vb len sb sl kb kl :
  p <> Path_DSA ->
  0 <= kl < 2 ^ 32 ->
  let m := dispatch_verifier p vb len sb sl kb kl in
  (forall ty h n sb' sl' rsa,
     In (Ev_RSA_verify ty h n sb' sl' rsa) (trace m) ->
     spec_rsa_key kb kl = Some rsa) /\
  (forall rsa data h,
     kl < 2 ^ 31 -> spec_rsa_key kb kl = Some rsa ->
     load_range vb 0 len = Some data -> path_digest p data = Some h ->
     In (Ev_RSA_verify (path_nid p) (Some h) (path_dlen p) sb sl rsa)
        (trace m)) /\
  (forall rest ty h n sb' sl' rsa,
     kb = x00 :: x01 :: x00 :: rest ->
     In (Ev_RSA_verify ty h n sb' sl' rsa) (trace m) ->
     rsa_e rsa = be2Z (firstn 256 rest) /\
     rsa_n rsa = be2Z (firstn (Z.to_nat (kl - 259)) (skipn 256 rest))) /\
  (forall rest ty h n sb' sl' rsa,
     kb = x03 :: rest ->
     In (Ev_RSA_verify ty h n sb' sl' rsa) (trace m) ->
     rsa_e rsa = be2Z (firstn 3 rest) /\
     rsa_n rsa = be2Z (firstn (Z.to_nat (kl - 4)) (skipn 3 rest))).
Proof.
  intros Hp Hkl m.
  destruct (rsa_path_run p vb len sb sl kb kl Hp) as (dev & emsg & Hdev & R).
  fold m in R.
  assert (Hkey : forall ty h n sb' sl' rsa,
            In (Ev_RSA_verify ty h n sb' sl' rsa) (trace m) ->
            spec_rsa_key kb kl = Some rsa).
  { intros ty h n sb' sl' rsa Hin.
    pose proof (rsa_run_call_key _ _ _ _ _ _ _ _ _ _ _ _ _ _ _ _ _ _
                  Hdev R Hin) as Hk.
    now apply decode_rsa_key_sound in Hk as [Hk _]. }
  split; [exact Hkey|]. split; [|split].
  - intros rsa data h Hkl' Hk Hd Hdg.
    eapply rsa_run_total; try eassumption.
    apply decode_rsa_key_complete; [lia|assumption].
  - intros rest ty h n sb' sl' rsa -> Hin.
    apply Hkey in Hin. revert Hin. unfold spec_rsa_key, spec_rsa_header.
    rewrite load_cons_0.
    change (byte_val x00 =? 0) with true. cbv iota.
    change (load (x00 :: x01 :: x00 :: rest) 1) with (Some x01).
    change (load (x00 :: x01 :: x00 :: rest) 2) with (Some x00).
    cbv iota beta.
    change (byte_val x01 * 256 + byte_val x00) with 256.
    destruct (load_range _ 3 256) as [e|] eqn:He; [|discriminate].
    destruct (load_range _ (3 + 256) _) as [nb|] eqn:Hn; [|discriminate].
    intros [= <-]. cbn [rsa_e rsa_n].
    apply load_range_some in He as (_ & _ & _ & _ & ->).
    apply load_range_some in Hn as (_ & _ & _ & _ & ->).
    split; reflexivity.
  - intros rest ty h n sb' sl' rsa -> Hin.
    apply Hkey in Hin. revert Hin. unfold spec_rsa_key, spec_rsa_header.
    rewrite load_cons_0.
    change (byte_val x03 =? 0) with false. cbv iota beta.
    change (byte_val x03) with 3.
    destruct (load_range _ 1 3) as [e|] eqn:He; [|discriminate].
    destruct (load_range _ (1 + 3) _) as [nb|] eqn:Hn; [|discriminate].
    intros [= <-]. cbn [rsa_e rsa_n].
    apply load_range_some in He as (_ & _ & _ & _ & ->).
    apply load_range_some in Hn as (_ & _ & _ & _ & ->).
    split; reflexivity.
Qed.

(** *** Digests *)

Lemma report_pairing p vb len fmt res :
  Forall (pairing p vb len) (trace (report fmt res)).
Proof.
  unfold report. destruct (res =? 1); [constructor|].
  destruct (res =? 0); [constructor|].
  cbn. repeat constructor.
Qed.

Lemma dsa_run_pairing vb len sb kb m :
  dsa_run vb len sb kb m ->
  Forall (pairing Path_DSA vb len) (trace m) /\
  (forall e, In e (trace m) -> is_verify_call e = true ->
     exists d, load_range vb 0 len = Some d /\ In (Ev_SHA1 d) (trace m)).
Proof.
  intros R. destruct R; cbn [trace fst].
  1-6: split; [repeat constructor|];
       intros e Hin; repeat destruct Hin as [Hin|Hin]; subst;
       try discriminate; contradiction.
  split.
  - constructor; [assumption|]. constructor; [|apply report_pairing].
    cbn. eauto.
  - intros e _ _. exists data. cbn. auto.
Qed.

Lemma rsa_run_pairing p dev emsg vb len sb sl kb kl m :
  (p = Path_RSASHA1 /\ dev = Ev_SHA1) \/ (p = Path_RSAMD5 /\ dev = Ev_MD5) ->
  rsa_run dev (path_digest p) (path_nid p) (path_dlen p) emsg
    vb len sb sl kb kl m ->
  Forall (pairing p vb len) (trace m) /\
  (forall e, In e (trace m) -> is_verify_call e = true ->
     exists d, load_range vb 0 len = Some d /\
               In (path_digest_event p d) (trace m)).
Proof.
  intros Hp R.
  assert (Hdev : forall d, load_range vb 0 len = Some d ->
            pairing p vb len (dev d) /\ is_verify_call (dev d) = false /\
            dev d = path_digest_event p d).
  { intros d Hd. destruct Hp as [[-> ->]|[-> ->]]; cbn; auto. }
  destruct R; cbn [trace fst].
  1-2: split; [constructor|intros e []].
  - destruct (Hdev data) as (Hpair & Hq & _); [assumption|].
    split; [repeat constructor; assumption|].
    intros e [<-|[<-|[]]]; [congruence|discriminate].
  - destruct (Hdev data) as (Hpair & Hq & He); [assumption|].
    split.
    + constructor; [assumption|]. constructor; [|apply report_pairing].
      destruct Hp as [[-> _]|[-> _]]; cbn; repeat split; eauto.
    + intros e _ _. exists data. rewrite <- He. cbn. auto.
Qed.

Lemma path_run_pairing (p : path) vb len sb sl kb kl :
  let m := dispatch_verifier p vb len sb sl kb kl in
  Forall (pairing p vb len) (trace m) /\
  (forall e, In e (trace m) -> is_verify_call e = true ->
     exists d, load_range vb 0 len = Some d /\
               In (path_digest_event p d) (trace m)).
Proof.
  destruct p; cbn [dispatch_verifier].
  - apply (dsa_run_pairing _ _ _ _ _ (verify_rrsig_dsa_run _ _ _ sl _ kl)).
  - eapply rsa_run_pairing; [|apply verify_rrsig_rsasha1_run]. auto.
  - eapply rsa_run_pairing; [|apply verify_rrsig_rsamd5_run]. auto.
Qed.

(** The run of [verify_rrsig] is silent and faulty when one of the rdata
    fields it follows is missing, and otherwise that of its [switch]. *)
Lemma verify_rrsig_cases rrset rrsig dnskey :
  verify_rrsig rrset rrsig dnskey = ([], Fault) \/
  exists rd8 rd1 kd vb len,
    nth_error (rdata rrsig) 8 = Some rd8 /\
    signed_buffer rrset rrsig = ([], Return (vb, len)) /\
    nth_error (rdata dnskey) 3 = Some kd /\
    nth_error (rdata rrsig) 1 = Some rd1.
Proof.
  destruct (nth_error (rdata rrsig) 8) as [rd8|] eqn:H8.
  2:{ left. unfold verify_rrsig, rdata_at. rewrite H8. reflexivity. }
  destruct (nth_error (rdata rrsig) 3) as [rd3|] eqn:H3.
  2:{ left. unfold verify_rrsig, rdata_at. rewrite H8, bind_deref_some.
      destruct (base64_decode _ _).
      rewrite (signed_buffer_fault _ _ H3). reflexivity. }
  destruct (signed_buffer_eq rrset rrsig rd3 H3) as (vb & len & Hb).
  destruct (nth_error (rdata dnskey) 3) as [kd|] eqn:Hk.
  2:{ left. unfold verify_rrsig, rdata_at. rewrite H8, bind_deref_some.
      destruct (base64_decode _ _). rewrite Hb, Hk. reflexivity. }
  destruct (nth_error (rdata rrsig) 1) as [rd1|] eqn:H1.
  2:{ left. unfold verify_rrsig, rdata_at. rewrite H8, bind_deref_some.
      destruct (base64_decode _ _). rewrite Hb, Hk.
      change (@pair (list event) (outcome (buffer * Z)) [] (Return (vb, len)))
        with (ret (vb, len)).
      rewrite bind_ret_l, bind_deref_some.
      destruct (base64_decode _ _) as [kbuf n'].
      destruct (Z.ltb_spec (to_uint n') 0) as [Hneg|_].
      { pose proof (to_uint_range n'). lia. }
      rewrite H1. reflexivity. }
  right. exists rd8, rd1, kd, vb, len. auto.
Qed.

(** The run of an RSA path, with the digest call of the path. *)
Lemma rsa_path_run_ev (p : path) vb len sb sl kb kl :
  p <> Path_DSA ->
  exists emsg,
    rsa_run (path_digest_event p) (path_digest p) (path_nid p) (path_dlen p)
      emsg vb len sb sl kb kl (dispatch_verifier p vb len sb sl kb kl).
Proof.
  destruct p; intros Hp; [contradiction| |].
  - exists "Error digesting". apply verify_rrsig_rsasha1_run.
  - exists "Error digesting\n". apply verify_rrsig_rsamd5_run.
Qed.

(** The run of [verify_rrsig] for a supported algorithm: that of the
    verifier of the RRSIG's algorithm on the signed buffer and the
    decoded signature and key. *)
Lemma verify_rrsig_path (p : path) rrset rrsig dnskey rd8 rd1 kd vb len :
  ALG_DSA <> ALG_RSASHA1 -> ALG_DSA <> ALG_RSAMD5 ->
  ALG_RSASHA1 <> ALG_RSAMD5 ->
  nth_error (rdata rrsig) 8 = Some rd8 ->
  signed_buffer rrset rrsig = ([], Return (vb, len)) ->
  nth_error (rdata dnskey) 3 = Some kd ->
  nth_error (rdata rrsig) 1 = Some rd1 ->
  rdata2uint8 rd1 = alg_of_path p ->
  let sg := base64_decode (rd_data rd8) (to_int (rd_length rd8)) in
  let ky := base64_decode (rd_data kd) (to_int (rd_length kd)) in
  verify_rrsig rrset rrsig dnskey =
  dispatch_verifier p vb len (fst sg) (to_uint (snd sg))
                    (fst ky) (to_uint (snd ky)).
Proof.
  intros Hds Hdm Hsm H8 Hb Hk H1 Halg sg ky.
  rewrite (verify_rrsig_dispatch _ _ _ _ _ _ _ _ H8 Hb Hk H1). cbv zeta.
  rewrite Halg. destruct p; cbn [alg_of_path dispatch_verifier].
  - rewrite Z.eqb_refl. reflexivity.
  - destruct (Z.eqb_spec ALG_RSASHA1 ALG_DSA); [congruence|].
    rewrite Z.eqb_refl. reflexivity.
  - destruct (Z.eqb_spec ALG_RSAMD5 ALG_DSA); [congruence|].
    destruct (Z.eqb_spec ALG_RSAMD5 ALG_RSASHA1); [congruence|].
    rewrite Z.eqb_refl. reflexivity.
Qed.

(** On the inputs of [reaches_digest] the verifier of a path does
    compute the digest of the signed bytes, and does call its primitive
    with the digest identifier, digest and digest length of the path
    (the RSA verifiers unless the digest is [NULL]). *)
Lemma path_run_live (p : path) vb len sb sl kb kl data :
  reaches_digest p sb kb kl ->
  load_range vb 0 len = Some data ->
  let m := dispatch_verifier p vb len sb sl kb kl in
  In (path_digest_event p data) (trace m) /\
  (p = Path_DSA \/ path_digest p data <> None ->
   In (Some (expected_call_digest p data)) (map call_digest (trace m))).
Proof.
  intros Hreach Hdata. cbv zeta.
  destruct p.
  - destruct Hreach as (t & d & s & Ht & Hd & Hs & HT & Hlen).
    cbn [dispatch_verifier].
    rewrite (dsa_run_total _ _ _ _ _ _ _ _ _ _ _
               (verify_rrsig_dsa_run vb len sb sl kb kl) Ht Hd Hs HT
               (load_range_fits sb 1 20 ltac:(lia) ltac:(lia) ltac:(lia))
               (load_range_fits sb 21 20 ltac:(lia) ltac:(lia) ltac:(lia))
               Hdata).
    cbn. auto.
  - destruct Hreach as (Hkl & rsa & Hk).
    pose proof (decode_rsa_key_complete kb kl rsa Hkl Hk) as Hdec.
    destruct (rsa_path_run_ev Path_RSASHA1 vb len sb sl kb kl) as (emsg & R);
      [discriminate|].
    destruct R; try congruence;
      assert (data0 = data) by congruence; subst data0.
    + cbn. split; [auto|]. intros [Hp|Hp]; [discriminate Hp|contradiction].
    + cbn. split; [auto|]. intros _. right. left.
      unfold expected_call_digest. cbn [path_digest path_nid path_dlen] in *.
      congruence.
  - destruct Hreach as (Hkl & rsa & Hk).
    pose proof (decode_rsa_key_complete kb kl rsa Hkl Hk) as Hdec.
    destruct (rsa_path_run_ev Path_RSAMD5 vb len sb sl kb kl) as (emsg & R);
      [discriminate|].
    destruct R; try congruence;
      assert (data0 = data) by congruence; subst data0.
    + cbn. split; [auto|]. intros [Hp|Hp]; [discriminate Hp|contradiction].
    + cbn. split; [auto|]. intros _. right. left.
      unfold expected_call_digest. cbn [path_digest path_nid path_dlen] in *.
      congruence.
Qed.

(** C8.  The digest is fixed by the path.  The DSA and RSA/SHA-1
    verifiers call SHA-1 and no other digest and hand the primitive that
    digest with length 20 (and [NID_sha1] for RSA); the RSA/MD5 verifier
    calls MD5 and no other digest and hands the primitive that digest
    with length 16 and [NID_md5]; the digest is always that of the first
    [length] bytes of the signed buffer, and a primitive is only called
    after it was computed.  Each verifier does compute that digest and
    does call its primitive with it whenever the key decodes (and, for
    DSA, the signature holds its 41 bytes with the key's [T]).
    [verify_rrsig] runs the verifier of the RRSIG's algorithm number on
    the buffer it built, so all of this holds of its run. *)
Theorem C8_digest_pairing (p : path) rrset rrsig dnskey rd1 :
  ALG_DSA <> ALG_RSASHA1 -> ALG_DSA <> ALG_RSAMD5 ->
  ALG_RSASHA1 <> ALG_RSAMD5 ->
  nth_error (rdata rrsig) 1 = Some rd1 ->
  rdata2uint8 rd1 = alg_of_path p ->
  (forall vb len sb sl kb kl,
     let m := dispatch_verifier p vb len sb sl kb kl in
     Forall (pairing p vb len) (trace m) /\
     (forall e, In e (trace m) -> is_verify_call e = true ->
        exists d, load_range vb 0 len = Some d /\
                  In (path_digest_event p d) (trace m)) /\
     (forall data,
        reaches_digest p sb kb kl -> load_range vb 0 len = Some data ->
        In (path_digest_event p data) (trace m) /\
        (p = Path_DSA \/ path_digest p data <> None ->
         In (Some (expected_call_digest p data))
            (map call_digest (trace m))))) /\
  (forall rd8 rd3 kd,
     nth_error (rdata rrsig) 8 = Some rd8 ->
     nth_error (rdata rrsig) 3 = Some rd3 ->
     nth_error (rdata dnskey) 3 = Some kd ->
     let sb := fst (base64_decode (rd_data rd8) (to_int (rd_length rd8))) in
     let ky := base64_decode (rd_data kd) (to_int (rd_length kd)) in
     let kb := fst ky in
     let kl := to_uint (snd ky) in
     exists vb len sl,
       signed_buffer rrset rrsig = ([], Return (vb, len)) /\
       let m := verify_rrsig rrset rrsig dnskey in
       m = dispatch_verifier p vb len sb sl kb kl /\
       Forall (pairing p vb len) (trace m) /\
       (forall data,
          reaches_digest p sb kb kl -> load_range vb 0 len = Some data ->
          In (path_digest_event p data) (trace m) /\
          (p = Path_DSA \/ path_digest p data <> None ->
           In (Some (expected_call_digest p data))
              (map call_digest (trace m))))).
Proof.
  intros Hds Hdm Hsm H1 Halg.
  assert (HV : forall vb len sb sl kb kl,
     let m := dispatch_verifier p vb len sb sl kb kl in
     Forall (pairing p vb len) (trace m) /\
     (forall e, In e (trace m) -> is_verify_call e = true ->
        exists d, load_range vb 0 len = Some d /\
                  In (path_digest_event p d) (trace m)) /\
     (forall data,
        reaches_digest p sb kb kl -> load_range vb 0 len = Some data ->
        In (path_digest_event p data) (trace m) /\
        (p = Path_DSA \/ path_digest p data <> None ->
         In (Some (expected_call_digest p data))
            (map call_digest (trace m))))).
  { intros vb len sb sl kb kl m.
    pose proof (path_run_pairing p vb len sb sl kb kl) as HP.
    cbv zeta in HP. destruct HP as [HF HD].
    split; [exact HF|]. split; [exact HD|].
    intros data Hr Hdata. exact (path_run_live p _ _ _ _ _ _ _ Hr Hdata). }
  split; [exact HV|].
  intros rd8 rd3 kd H8 H3 Hk sb ky kb kl.
  destruct (signed_buffer_eq rrset rrsig rd3 H3) as (vb & len & Hb).
  exists vb, len,
    (to_uint (snd (base64_decode (rd_data rd8) (to_int (rd_length rd8))))).
  split; [exact Hb|]. cbv zeta.
  rewrite (verify_rrsig_path p _ _ _ _ _ _ _ _ Hds Hdm Hsm H8 Hb Hk H1 Halg).
  fold ky. fold kb. fold kl. fold sb.
  split; [reflexivity|].
  destruct (HV vb len sb
              (to_uint (snd (base64_decode (rd_data rd8)
                               (to_int (rd_length rd8))))) kb kl)
    as (HF & _ & HL).
  split; [exact HF|exact HL].
Qed.

(** C10.  The DSA verifier never looks at [siglen]: two calls that differ
    only in it have the same run.  What it reads of the signature is the
    object's bytes 0, 1-20 and 21-40, whatever length was declared: the
    run depends on the signature through its first 41 bytes only, and
    with 41 bytes in the object the primitive is reached for every
    [siglen], also one below 41. *)
Theorem C10_dsa_ignores_siglen vb len sb sl sl' kb kl :
  verify_rrsig_dsa vb len sb sl kb kl = verify_rrsig_dsa vb len sb sl' kb kl /\
  (forall sb', firstn 41 sb = firstn 41 sb' ->
     verify_rrsig_dsa vb len sb sl kb kl =
     verify_rrsig_dsa vb len sb' sl' kb kl) /\
  (forall t d s data,
     load kb 0 = Some t -> spec_dsa_key kb = Some d ->
     load sb 0 = Some s -> byte_val s = byte_val t ->
     41 <= buflen sb -> load_range vb 0 len = Some data ->
     In (Ev_DSA_do_verify (SHA1 data) 20
           {| sig_r := be2Z (firstn 20 (skipn 1 sb));
              sig_s := be2Z (firstn 20 (skipn 21 sb)) |} d)
        (trace (verify_rrsig_dsa vb len sb sl kb kl))).
Proof.
  split; [reflexivity|]. split.
  - intros sb' Heq.
    assert (H0 : load sb 0 = load sb' 0).
    { assert (Hhd : forall l : buffer, load l 0 = load (firstn 41 l) 0)
        by (intros [|x l]; reflexivity).
      now rewrite (Hhd sb), (Hhd sb'), Heq. }
    assert (Hr : forall off n, 0 <= off -> off + n <= 41 ->
              load_range sb off n = load_range sb' off n).
    { intros off n Hoff Hn.
      assert (Hlen : Nat.min 41 (List.length sb)
                     = Nat.min 41 (List.length sb')).
      { rewrite <- !length_firstn. now rewrite Heq. }
      unfold load_range, buflen.
      destruct (off <? 0) eqn:E1; [reflexivity|].
      destruct (n <? 0) eqn:E2; [reflexivity|]. cbn [orb].
      apply Z.ltb_ge in E1, E2.
      destruct (Z.ltb_spec (Z.of_nat (List.length sb)) (off + n));
        destruct (Z.ltb_spec (Z.of_nat (List.length sb')) (off + n));
        try lia; try reflexivity.
      f_equal.
      rewrite <- (firstn_skipn 41 sb), <- (firstn_skipn 41 sb'), Heq.
      assert (Hl : (Z.to_nat off + Z.to_nat n <= List.length (firstn 41 sb'))%nat).
      { rewrite length_firstn. lia. }
      rewrite !skipn_app, !firstn_app, !length_skipn.
      replace (Z.to_nat n - (List.length (firstn 41 sb') - Z.to_nat off))%nat
        with 0%nat by lia.
      reflexivity. }
    unfold verify_rrsig_dsa, BN_bin2bn.
    rewrite H0, (Hr 1 20), (Hr 21 20) by lia. reflexivity.
  - intros t d s data Ht Hd Hs HT Hlen Hdata.
    rewrite (dsa_run_total _ _ _ _ _ _ _ _ _ _ _
               (verify_rrsig_dsa_run vb len sb sl kb kl) Ht Hd Hs HT
               (load_range_fits sb 1 20 ltac:(lia) ltac:(lia) ltac:(lia))
               (load_range_fits sb 21 20 ltac:(lia) ltac:(lia) ltac:(lia))
               Hdata).
    cbn. auto.
Qed.

(** *** The signed buffer *)

Lemma write_at_length buf off bs :
  0 <= off -> off + buflen bs <= buflen buf ->
  buflen (write_at buf off bs) = buflen buf.
Proof.
  unfold write_at, buflen. intros H0 H1.
  rewrite !length_app, length_firstn, length_skipn. lia.
Qed.

Lemma write_at_prefix buf off bs :
  0 <= off -> off + buflen bs <= buflen buf ->
  firstn (Z.to_nat (off + buflen bs)) (write_at buf off bs) =
  firstn (Z.to_nat off) buf ++ bs.
Proof.
  unfold write_at, buflen. intros H0 H1.
  rewrite app_assoc.
  rewrite firstn_app.
  rewrite length_app, length_firstn.
  replace (Z.to_nat (off + Z.of_nat (List.length bs))
           - (Nat.min (Z.to_nat off) (List.length buf) + List.length bs))%nat
    with 0%nat by lia.
  cbn [firstn]. rewrite app_nil_r.
  apply firstn_all2. rewrite length_app, length_firstn. lia.
Qed.

Lemma pairing_digest p vb len tr e :
  Forall (pairing p vb len) tr ->
  In e tr -> is_digest_call e = true ->
  exists d, load_range vb 0 len = Some d /\ (e = Ev_SHA1 d \/ e = Ev_MD5 d).
Proof.
  intros HF Hin Hdg. rewrite Forall_forall in HF. specialize (HF e Hin).
  destruct e; try discriminate Hdg; destruct p; cbn in HF;
    try contradiction; eauto.
Qed.

Section SignedBuffer.

(** The wire serialization of the RRSIG's fields without the signature,
    and the canonical wire form of an RRset; the two ldns serializers are
    taken to store them at the offset they are given and to return their
    length, when they fit the buffer. *)
Variable sig_fields : t_rr -> list byte.
Variable rrset_wire : list t_rr -> list byte.

Hypothesis xmalloc_size : forall n, 0 <= n -> buflen (xmalloc n) = n.

Hypothesis sig2verifybytes_stores : forall rr buf off,
  0 <= off -> off + buflen (sig_fields rr) <= buflen buf ->
  buflen buf = MAX_PACKET ->
  sig2verifybytes rr buf off MAX_PACKET =
  (write_at buf off (sig_fields rr), buflen (sig_fields rr)).

Hypothesis rrset2wire_stores : forall rrs buf off,
  0 <= off -> off + buflen (rrset_wire rrs) <= buflen buf ->
  buflen buf = MAX_PACKET ->
  rrset2wire rrs buf off MAX_PACKET =
  (write_at buf off (rrset_wire rrs), buflen (rrset_wire rrs)).

(** C9.  The buffer [verify_rrsig] builds holds, in its first [length]
    bytes, the wire form of the RRSIG's fields without the signature
    followed by the wire form of the RRset after it was sorted and every
    record's TTL was set to the RRSIG's original TTL.  That buffer and
    that length are what it hands to the verifier of the RRSIG's
    algorithm: its run is the verifier's run on them, every digest
    computed in the call is a digest of exactly these bytes, and the
    digest of these bytes is computed, and handed to the primitive,
    whenever the key decodes (and, for DSA, the signature holds its 41
    bytes with the key's [T]). *)
Theorem C9_signed_buffer rrset rrsig dnskey rd3 :
  nth_error (rdata rrsig) 3 = Some rd3 ->
  let canon := rrset_set_ttl (rrset_sort rrset) (rdata2uint32 rd3) in
  let signed := sig_fields rrsig ++ rrset_wire canon in
  0 <= MAX_PACKET < 2 ^ 32 ->
  buflen signed <= MAX_PACKET ->
  exists vb len,
    signed_buffer rrset rrsig = ([], Return (vb, len)) /\
    load_range vb 0 len = Some signed /\
    (forall e, In e (trace (verify_rrsig rrset rrsig dnskey)) ->
       is_digest_call e = true ->
       e = Ev_SHA1 signed \/ e = Ev_MD5 signed) /\
    (forall (p : path) rd8 rd1 kd,
       ALG_DSA <> ALG_RSASHA1 -> ALG_DSA <> ALG_RSAMD5 ->
       ALG_RSASHA1 <> ALG_RSAMD5 ->
       nth_error (rdata rrsig) 8 = Some rd8 ->
       nth_error (rdata rrsig) 1 = Some rd1 ->
       nth_error (rdata dnskey) 3 = Some kd ->
       rdata2uint8 rd1 = alg_of_path p ->
       let sb := fst (base64_decode (rd_data rd8) (to_int (rd_length rd8))) in
       let ky := base64_decode (rd_data kd) (to_int (rd_length kd)) in
       let kb := fst ky in
       let kl := to_uint (snd ky) in
       let m := verify_rrsig rrset rrsig dnskey in
       (exists sl, m = dispatch_verifier p vb len sb sl kb kl) /\
       (reaches_digest p sb kb kl ->
        In (path_digest_event p signed) (trace m) /\
        (p = Path_DSA \/ path_digest p signed <> None ->
         In (Some (expected_call_digest p signed))
            (map call_digest (trace m))))).
Proof.
  intros H3 canon signed HM Hfit.
  assert (Hlen : buflen signed
                 = buflen (sig_fields rrsig) + buflen (rrset_wire canon)).
  { unfold signed, buflen. rewrite length_app. lia. }
  assert (HS : 0 <= buflen (sig_fields rrsig)) by (unfold buflen; lia).
  assert (HW : 0 <= buflen (rrset_wire canon)) by (unfold buflen; lia).
  assert (Hbuf : exists vb len,
            signed_buffer rrset rrsig = ([], Return (vb, len)) /\
            load_range vb 0 len = Some signed).
  { unfold signed_buffer, rdata_at.
    assert (Hx : buflen (xmalloc MAX_PACKET) = MAX_PACKET)
      by (apply xmalloc_size; lia).
    rewrite sig2verifybytes_stores by lia.
    rewrite H3, bind_deref_some. fold canon.
    rewrite (to_uint_small (0 + _)) by lia.
    change (0 + buflen (sig_fields rrsig)) with (buflen (sig_fields rrsig)).
    assert (Hl1 : buflen (write_at (xmalloc MAX_PACKET) 0 (sig_fields rrsig))
                  = buflen (xmalloc MAX_PACKET))
      by (apply write_at_length; lia).
    assert (Hp1 : firstn (Z.to_nat (0 + buflen (sig_fields rrsig)))
                    (write_at (xmalloc MAX_PACKET) 0 (sig_fields rrsig))
                  = firstn (Z.to_nat 0) (xmalloc MAX_PACKET)
                      ++ sig_fields rrsig)
      by (apply write_at_prefix; lia).
    cbn [Z.to_nat firstn app] in Hp1.
    change (0 + buflen (sig_fields rrsig))
      with (buflen (sig_fields rrsig)) in Hp1.
    rewrite rrset2wire_stores by lia.
    rewrite to_uint_small by lia.
    eexists _, _. split; [reflexivity|].
    rewrite load_range_fits; try lia.
    2:{ rewrite write_at_length; lia. }
    cbn [Z.to_nat skipn]. f_equal.
    rewrite write_at_prefix by lia. rewrite Hp1. reflexivity. }
  destruct Hbuf as (vb & len & Hb & Hload).
  exists vb, len. split; [exact Hb|]. split; [exact Hload|]. split.
  - intros e Hin Hdg.
    destruct (verify_rrsig_cases rrset rrsig dnskey)
      as [E|(rd8 & rd1 & kd & vb' & len' & H8 & Hb' & Hk & H1)].
    { rewrite E in Hin. destruct Hin. }
    rewrite Hb in Hb'. injection Hb' as <- <-.
    rewrite (verify_rrsig_dispatch _ _ _ _ _ _ _ _ H8 Hb Hk H1) in Hin.
    cbv zeta in Hin.
    assert (Hd : exists d, load_range vb 0 len = Some d /\
                           (e = Ev_SHA1 d \/ e = Ev_MD5 d)).
    { destruct (rdata2uint8 rd1 =? ALG_DSA).
      { eapply pairing_digest; [|exact Hin|exact Hdg].
        exact (proj1 (path_run_pairing Path_DSA vb len _ 0 _ 0)). }
      destruct (rdata2uint8 rd1 =? ALG_RSASHA1).
      { eapply pairing_digest; [|exact Hin|exact Hdg].
        exact (proj1 (path_run_pairing Path_RSASHA1 _ _ _ _ _ _)). }
      destruct (rdata2uint8 rd1 =? ALG_RSAMD5).
      { eapply pairing_digest; [|exact Hin|exact Hdg].
        exact (proj1 (path_run_pairing Path_RSAMD5 _ _ _ _ _ _)). }
      cbn in Hin. destruct Hin as [<-|[<-|[]]]; discriminate Hdg. }
    destruct Hd as (d & Hd & He).
    assert (d = signed) by congruence. subst d. exact He.
  - intros p rd8 rd1 kd Hds Hdm Hsm H8 H1 Hk Halg sb ky kb kl m.
    subst m.
    rewrite (verify_rrsig_path p _ _ _ _ _ _ _ _ Hds Hdm Hsm H8 Hb Hk H1 Halg).
    fold ky. fold kb. fold kl. fold sb.
    split; [eexists; reflexivity|].
    intros Hr. exact (path_run_live p _ _ _ _ _ _ _ Hr Hload).
Qed.

End SignedBuffer.

End Claims.

(** ** Further properties of the verifiers *)

Section Extras.

Context {K : Constants} {SSL : OpenSSL} {L : Ldns}.

Lemma path_digest_event_kind p d :
  is_digest_call (path_digest_event p d) = true /\
  is_verify_call (path_digest_event p d) = false /\
  reported (path_digest_event p d) = None /\
  base64_guard_event (path_digest_event p d) = false /\
  path_digest_event p d <> Ev_ERR_print_errors_fp.
Proof. destruct p; cbn; repeat split; discriminate. Qed.

(** A property of every event of every verifier's run holds of every
    event of a run of [verify_rrsig], when it holds of the two events of
    the default case. *)
Lemma verify_rrsig_events (P : event -> Prop) rrset rrsig dnskey :
  (forall p vb len sb sl kb kl e,
     In e (trace (dispatch_verifier p vb len sb sl kb kl)) -> P e) ->
  (forall fmt args, fmt = "unknown or unimplemented algorithm (alg %s nr %d)"
                    -> P (Ev_warning fmt args)) ->
  (forall rr f, P (Ev_print_rr rr f)) ->
  forall e, In e (trace (verify_rrsig rrset rrsig dnskey)) -> P e.
Proof.
  intros HV HW HP e Hin.
  destruct (verify_rrsig_cases rrset rrsig dnskey)
    as [E|(rd8 & rd1 & kd & vb & len & H8 & Hb & Hk & H1)].
  { rewrite E in Hin. destruct Hin. }
  rewrite (verify_rrsig_dispatch _ _ _ _ _ _ _ _ H8 Hb Hk H1) in Hin.
  cbv zeta in Hin.
  destruct (rdata2uint8 rd1 =? ALG_DSA).
  { exact (HV Path_DSA _ _ _ _ _ _ e Hin). }
  destruct (rdata2uint8 rd1 =? ALG_RSASHA1).
  { exact (HV Path_RSASHA1 _ _ _ _ _ _ e Hin). }
  destruct (rdata2uint8 rd1 =? ALG_RSAMD5).
  { exact (HV Path_RSAMD5 _ _ _ _ _ _ e Hin). }
  cbn in Hin. destruct Hin as [<-|[<-|[]]]; auto.
Qed.

(** The outcome of a run of [verify_rrsig] is the outcome of a run of a
    verifier, or the exit of the default case, or a fault. *)
Lemma verify_rrsig_outcome (P : M Z -> Prop) rrset rrsig dnskey :
  (forall p vb len sb sl kb kl, P (dispatch_verifier p vb len sb sl kb kl)) ->
  (forall fmt args rr f,
     P ([Ev_warning fmt args; Ev_print_rr rr f], Exit EXIT_FAILURE)) ->
  P ([], Fault) ->
  P (verify_rrsig rrset rrsig dnskey).
Proof.
  intros HV HE HF.
  destruct (verify_rrsig_cases rrset rrsig dnskey)
    as [E|(rd8 & rd1 & kd & vb & len & H8 & Hb & Hk & H1)].
  { rewrite E. exact HF. }
  rewrite (verify_rrsig_dispatch _ _ _ _ _ _ _ _ H8 Hb Hk H1).
  cbv zeta.
  destruct (rdata2uint8 rd1 =? ALG_DSA); [exact (HV Path_DSA vb len _ 0 _ 0)|].
  destruct (rdata2uint8 rd1 =? ALG_RSASHA1);
    [exact (HV Path_RSASHA1 _ _ _ _ _ _)|].
  destruct (rdata2uint8 rd1 =? ALG_RSAMD5);
    [exact (HV Path_RSAMD5 _ _ _ _ _ _)|].
  apply HE.
Qed.

Lemma report_no_guard fmt res :
  String.eqb fmt "Error in base64 decode of key data:" = false ->
  existsb base64_guard_event (trace (report fmt res)) = false.
Proof.
  intros Hf. unfold report. destruct (res =? 1); [reflexivity|].
  destruct (res =? 0); [reflexivity|].
  cbn. rewrite Hf. reflexivity.
Qed.

Lemma path_run_no_guard (p : path) vb len sb sl kb kl :
  existsb base64_guard_event (trace (dispatch_verifier p vb len sb sl kb kl))
  = false.
Proof.
  destruct p.
  - cbn [dispatch_verifier].
    destruct (verify_rrsig_dsa_run vb len sb sl kb kl); cbn [trace fst];
      try reflexivity.
    cbn [existsb base64_guard_event orb]. now apply report_no_guard.
  - destruct (rsa_path_run_ev Path_RSASHA1 vb len sb sl kb kl) as (emsg & R);
      [discriminate|].
    destruct R; cbn [trace fst]; try reflexivity.
    cbn [existsb base64_guard_event orb path_digest_event].
    now apply report_no_guard.
  - destruct (rsa_path_run_ev Path_RSAMD5 vb len sb sl kb kl) as (emsg & R);
      [discriminate|].
    destruct R; cbn [trace fst]; try reflexivity.
    cbn [existsb base64_guard_event orb path_digest_event].
    now apply report_no_guard.
Qed.

(** X1.  The branch of [verify_rrsig] that reports an error in the base64
    decoding of the key is never taken: [keylen] is unsigned, so no run
    prints that warning, the key rdata or the newline after it, whatever
    size [base64_decode] stored. *)
Theorem X1_base64_guard_never_taken rrset rrsig dnskey :
  existsb base64_guard_event (trace (verify_rrsig rrset rrsig dnskey)) = false.
Proof.
  assert (Hall : forall e, In e (trace (verify_rrsig rrset rrsig dnskey)) ->
                           base64_guard_event e = false).
  { apply verify_rrsig_events.
    - intros p vb len sb sl kb kl e Hin.
      pose proof (path_run_no_guard p vb len sb sl kb kl) as Hq.
      destruct (base64_guard_event e) eqn:He; [|reflexivity].
      assert (existsb base64_guard_event
                (trace (dispatch_verifier p vb len sb sl kb kl)) = true)
        by (apply existsb_exists; eauto).
      congruence.
    - intros fmt args ->. reflexivity.
    - reflexivity. }
  destruct (existsb base64_guard_event
              (trace (verify_rrsig rrset rrsig dnskey))) eqn:E;
    [|reflexivity].
  apply existsb_exists in E as (e & Hin & He).
  rewrite (Hall e Hin) in He. discriminate He.
Qed.

Lemma filter_none {A} (f : A -> bool) (l : list A) :
  (forall a, In a l -> f a = false) -> filter f l = [].
Proof.
  induction l as [|a l IH]; intros H; [reflexivity|].
  cbn. rewrite (H a) by (left; reflexivity).
  apply IH. intros b Hb. apply H. right. exact Hb.
Qed.

Lemma report_filters fmt res :
  filter is_verify_call (trace (report fmt res)) = [] /\
  filter is_digest_call (trace (report fmt res)) = [].
Proof.
  split; apply filter_none; intros e Hin;
    apply report_trace_quiet in Hin; tauto.
Qed.

Lemma report_outcome fmt res :
  result (report fmt res) = Return RET_SUC \/
  result (report fmt res) = Return RET_FAIL.
Proof. rewrite report_result. destruct (res =? 1); auto. Qed.

Lemma report_err_print fmt res :
  In Ev_ERR_print_errors_fp (trace (report fmt res)) <-> res <> 1 /\ res <> 0.
Proof.
  unfold report.
  destruct (Z.eqb_spec res 1) as [->|H1].
  { cbn. split; [intros []|intros [H _]; now apply H]. }
  destruct (Z.eqb_spec res 0) as [->|H0].
  { cbn. split; [intros []|intros [_ H]; now apply H]. }
  cbn. split; auto.
Qed.

(** The shape every run of a verifier has: nothing printed and no call
    made, or one warning, or a digest call followed by nothing more than
    its error message, or a digest call, one primitive call and the
    report of what the primitive returned. *)
Lemma path_run_shape (p : path) vb len sb sl kb kl :
  let m := dispatch_verifier p vb len sb sl kb kl in
  m = ([], Fault) \/
  (exists fmt, m = ([Ev_warning fmt []], Return RET_FAIL)) \/
  (exists data msg, p <> Path_DSA /\ load_range vb 0 len = Some data /\
     path_digest p data = None /\
     m = ([path_digest_event p data; Ev_error msg], Exit EXIT_FAILURE)) \/
  (exists data call fmt,
     load_range vb 0 len = Some data /\
     is_verify_call call = true /\
     (p <> Path_DSA -> exists h, path_digest p data = Some h) /\
     (exists res, reported call = Some res /\
        m = (path_digest_event p data :: call :: trace (report fmt res),
             result (report fmt res)))).
Proof.
  destruct p.
  - cbn [dispatch_verifier].
    destruct (verify_rrsig_dsa_run vb len sb sl kb kl); auto.
    + right. left. eexists. reflexivity.
    + right. left. eexists. reflexivity.
    + right. right. right.
      exists data, (Ev_DSA_do_verify (SHA1 data) 20 sg d),
        "internal error when verifying: %d".
      repeat split; try assumption.
      * intros Hp. now contradiction Hp.
      * exists res. split; reflexivity.
  - destruct (rsa_path_run_ev Path_RSASHA1 vb len sb sl kb kl) as (emsg & R);
      [discriminate|].
    destruct R; auto.
    + right. right. left. exists data, emsg.
      repeat split; try assumption; discriminate.
    + right. right. right.
      exists data, (Ev_RSA_verify (path_nid Path_RSASHA1) (Some dg)
                      (path_dlen Path_RSASHA1) sb sl rsa),
        "internal error when verifying: %d\n".
      repeat split; try assumption.
      * intros _. exists dg. assumption.
      * exists res. split; reflexivity.
  - destruct (rsa_path_run_ev Path_RSAMD5 vb len sb sl kb kl) as (emsg & R);
      [discriminate|].
    destruct R; auto.
    + right. right. left. exists data, emsg.
      repeat split; try assumption; discriminate.
    + right. right. right.
      exists data, (Ev_RSA_verify (path_nid Path_RSAMD5) (Some dg)
                      (path_dlen Path_RSAMD5) sb sl rsa),
        "internal error when verifying: %d\n".
      repeat split; try assumption.
      * intros _. exists dg. assumption.
      * exists res. split; reflexivity.
Qed.

(** X4.  A call of [verify_rrsig] ends in one of four ways: it returns
    [RET_SUC], it returns [RET_FAIL], it terminates the process with
    [EXIT_FAILURE], or it faults; no other value is ever returned and no
    other exit status used. *)
Theorem X4_verify_rrsig_outcomes rrset rrsig dnskey :
  let o := result (verify_rrsig rrset rrsig dnskey) in
  o = Return RET_SUC \/ o = Return RET_FAIL \/
  o = Exit EXIT_FAILURE \/ o = Fault.
Proof.
  cbv zeta. apply verify_rrsig_outcome with
    (P := fun m => result m = Return RET_SUC \/ result m = Return RET_FAIL \/
                   result m = Exit EXIT_FAILURE \/ result m = Fault).
  - intros p vb len sb sl kb kl.
    destruct (path_run_shape p vb len sb sl kb kl)
      as [E|[(fmt & E)|[(data & msg & _ & _ & _ & E)
                       |(data & call & fmt & _ & _ & _ & res & _ & E)]]];
      rewrite E; cbn [result snd]; auto.
    destruct (report_outcome fmt res) as [H|H]; rewrite H; auto.
  - cbn. auto.
  - cbn. auto.
Qed.

(** X5.  [verify_rrsig] returns [RET_SUC] exactly when, in that call, a
    verification primitive was called and returned 1. *)
Theorem X5_success_iff_primitive_accepts rrset rrsig dnskey :
  RET_SUC <> RET_FAIL ->
  let m := verify_rrsig rrset rrsig dnskey in
  result m = Return RET_SUC <-> In (Some 1) (map reported (trace m)).
Proof.
  intros Hd. cbv zeta. apply verify_rrsig_outcome with
    (P := fun m => result m = Return RET_SUC
                   <-> In (Some 1) (map reported (trace m))).
  - intros p vb len sb sl kb kl.
    destruct (path_run_shape p vb len sb sl kb kl)
      as [E|[(fmt & E)|[(data & msg & _ & _ & _ & E)
                       |(data & call & fmt & _ & _ & _ & res & Hr & E)]]];
      rewrite E; cbn [result trace fst snd map In].
    + split; [discriminate|intros []].
    + split; [intros [= H]; congruence|intros [H|[]]; discriminate H].
    + destruct (path_digest_event_kind p data) as (_ & _ & Hn & _).
      rewrite Hn. split; [discriminate|].
      intros [H|[H|[]]]; discriminate H.
    + destruct (path_digest_event_kind p data) as (_ & _ & Hn & _).
      rewrite Hn, Hr, report_result. split.
      * destruct (Z.eqb_spec res 1) as [->|]; [auto|].
        intros [= H]. congruence.
      * intros [H|[H|H]]; [discriminate H| |].
        -- injection H as ->. reflexivity.
        -- now apply report_not_reported in H.
  - intros fmt args rr0 f. cbn. split; [discriminate|].
    intros [H|[H|[]]]; discriminate H.
  - cbn. split; [discriminate|intros []].
Qed.

(** X8.  In one call of [verify_rrsig] at most one digest is computed and
    at most one verification primitive is called. *)
Theorem X8_at_most_one_call rrset rrsig dnskey :
  let tr := trace (verify_rrsig rrset rrsig dnskey) in
  (List.length (filter is_verify_call tr) <= 1)%nat /\
  (List.length (filter is_digest_call tr) <= 1)%nat.
Proof.
  cbv zeta. apply verify_rrsig_outcome with
    (P := fun m =>
            (List.length (filter is_verify_call (trace m)) <= 1)%nat /\
            (List.length (filter is_digest_call (trace m)) <= 1)%nat).
  - intros p vb len sb sl kb kl.
    destruct (path_run_shape p vb len sb sl kb kl)
      as [E|[(fmt & E)|[(data & msg & _ & _ & _ & E)
                       |(data & call & fmt & _ & Hc & _ & res & Hr & E)]]];
      rewrite E; cbn [trace fst filter is_verify_call is_digest_call].
    + cbn. lia.
    + cbn. lia.
    + destruct (path_digest_event_kind p data) as (Hdg & Hv & _).
      rewrite Hdg, Hv. cbn. lia.
    + destruct (path_digest_event_kind p data) as (Hdg & Hv & _).
      destruct (report_filters fmt res) as [Hf1 Hf2].
      rewrite Hdg, Hv, Hc, Hf1, Hf2.
      assert (is_digest_call call = false) as ->
        by (destruct call; try discriminate Hc; reflexivity).
      cbn. lia.
  - intros. cbn. lia.
  - cbn. lia.
Qed.

Lemma path_run_err_print (p : path) vb len sb sl kb kl :
  let m := dispatch_verifier p vb len sb sl kb kl in
  In Ev_ERR_print_errors_fp (trace m) <->
  exists r, In (Some r) (map reported (trace m)) /\ r <> 1 /\ r <> 0.
Proof.
  cbv zeta.
  destruct (path_run_shape p vb len sb sl kb kl)
    as [E|[(fmt & E)|[(data & msg & _ & _ & _ & E)
                     |(data & call & fmt & _ & Hc & _ & res & Hr & E)]]];
    rewrite E; cbn [trace fst map In].
  - split; [intros []|intros (r & [] & _)].
  - split; [intros [H|[]]; discriminate H
           |intros (r & [H|[]] & _); discriminate H].
  - destruct (path_digest_event_kind p data) as (_ & _ & Hn & _ & Hne).
    rewrite Hn. split.
    + intros [H|[H|[]]]; [now apply Hne in H|discriminate H].
    + intros (r & [H|[H|[]]] & _); discriminate H.
  - destruct (path_digest_event_kind p data) as (_ & _ & Hn & _ & Hne).
    rewrite Hn, Hr. split.
    + intros [H|[H|H]].
      * now apply Hne in H.
      * subst call. discriminate Hc.
      * apply report_err_print in H. exists res. auto.
    + intros (r & [H|[H|H]] & Hr1 & Hr0).
      * discriminate H.
      * injection H as ->. right. right. apply report_err_print. auto.
      * now apply report_not_reported in H.
Qed.

(** X14.  [verify_rrsig] prints the library's error queue exactly when,
    in that call, a verification primitive was called and returned
    neither 1 nor 0; in all other runs [ERR_print_errors_fp] is not
    called. *)
Theorem X14_error_queue_printed rrset rrsig dnskey :
  let m := verify_rrsig rrset rrsig dnskey in
  In Ev_ERR_print_errors_fp (trace m) <->
  exists r, In (Some r) (map reported (trace m)) /\ r <> 1 /\ r <> 0.
Proof.
  cbv zeta. apply verify_rrsig_outcome with
    (P := fun m => In Ev_ERR_print_errors_fp (trace m) <->
                   exists r, In (Some r) (map reported (trace m))
                             /\ r <> 1 /\ r <> 0).
  - intros. apply path_run_err_print.
  - intros. cbn. split.
    + intros [H|[H|[]]]; discriminate H.
    + intros (r & [H|[H|[]]] & _); discriminate H.
  - cbn. split; [intros []|intros (r & [] & _)].
Qed.

(** X2.  In both RSA verifiers, when the key decodes and the digest
    function returns [NULL], the verifier prints an error and terminates
    the process with [EXIT_FAILURE]; [RSA_verify] is not called and no
    value is returned. *)
Theorem X2_rsa_null_digest_exits (p : path) vb len sb sl kb kl rsa data :
  p <> Path_DSA ->
  0 <= kl < 2 ^ 31 ->
  spec_rsa_key kb kl = Some rsa ->
  load_range vb 0 len = Some data ->
  path_digest p data = None ->
  exists msg,
    dispatch_verifier p vb len sb sl kb kl
    = ([path_digest_event p data; Ev_error msg], Exit EXIT_FAILURE).
Proof.
  intros Hp Hkl Hk Hd Hn.
  destruct (rsa_path_run_ev p vb len sb sl kb kl Hp) as (emsg & R).
  pose proof (decode_rsa_key_complete kb kl rsa Hkl Hk) as Hdec.
  exists emsg. destruct R; congruence.
Qed.

(** X3.  The DSA verifier never terminates the process, and it does not
    test the pointer [SHA1] returns: when that is [NULL], the key decodes
    and the signature holds its 41 bytes with the key's [T],
    [DSA_do_verify] is called with the [NULL] digest. *)
Theorem X3_dsa_null_digest_unchecked vb len sb sl kb kl :
  let m := verify_rrsig_dsa vb len sb sl kb kl in
  (forall st, result m <> Exit st) /\
  (forall t d s data,
     load kb 0 = Some t -> spec_dsa_key kb = Some d ->
     load sb 0 = Some s -> byte_val s = byte_val t ->
     41 <= buflen sb ->
     load_range vb 0 len = Some data -> SHA1 data = None ->
     In (Ev_DSA_do_verify None 20
           {| sig_r := be2Z (firstn 20 (skipn 1 sb));
              sig_s := be2Z (firstn 20 (skipn 21 sb)) |} d) (trace m)).
Proof.
  cbv zeta. split.
  - intros st.
    destruct (verify_rrsig_dsa_run vb len sb sl kb kl); cbn [result snd];
      try discriminate.
    rewrite report_result. discriminate.
  - intros t d s data Ht Hd Hs HT Hlen Hdata Hnull.
    rewrite (dsa_run_total _ _ _ _ _ _ _ _ _ _ _
               (verify_rrsig_dsa_run vb len sb sl kb kl) Ht Hd Hs HT
               (load_range_fits sb 1 20 ltac:(lia) ltac:(lia) ltac:(lia))
               (load_range_fits sb 21 20 ltac:(lia) ltac:(lia) ltac:(lia))
               Hdata).
    rewrite Hnull. cbn. auto.
Qed.



Lemma load_range_short b off len :
  buflen b < off + len -> load_range b off len = None.
Proof.
  intros H. unfold load_range.
  destruct (off <? 0); [reflexivity|].
  destruct (len <? 0); [reflexivity|].
  destruct (Z.ltb_spec (buflen b) (off + len)); [reflexivity|lia].
Qed.

(** X9.  The DSA verifier makes no check of the key length: when the key
    blob is shorter than the [1 + 20 + 3 * (64 + T*8)] bytes its [T]
    announces, the verifier reads outside the blob (a fault) whatever
    [keylen] says; it returns no error. *)
Theorem X9_dsa_short_key_faults vb len sb sl kb kl t :
  load kb 0 = Some t -> byte_val t <= 8 ->
  buflen kb < 21 + 3 * numberlength_of (byte_val t) ->
  verify_rrsig_dsa vb len sb sl kb kl = ([], Fault).
Proof.
  intros Ht HT Hshort.
  assert (Hk : spec_dsa_key kb = None).
  { unfold spec_dsa_key. rewrite Ht. cbv zeta.
    destruct (8 <? byte_val t); [reflexivity|].
    rewrite (load_range_short kb (21 + _ + _)) by lia.
    destruct (load_range kb 1 20); [|reflexivity].
    destruct (load_range kb 21 _); [|reflexivity].
    destruct (load_range kb (21 + _) _); reflexivity. }
  destruct (verify_rrsig_dsa_run vb len sb sl kb kl);
    try reflexivity; try congruence.
  assert (t0 = t) by congruence. subst. lia.
Qed.

(** X10.  The DSA verifier makes no check of the signature length: when
    the key decodes and the signature object is shorter than 41 bytes
    (and does not begin with a [T] other than the key's), the verifier
    reads outside the object (a fault) whatever [siglen] says; it
    returns no error. *)
Theorem X10_dsa_short_signature_faults vb len sb sl kb kl t d :
  load kb 0 = Some t -> spec_dsa_key kb = Some d ->
  (forall s, load sb 0 = Some s -> byte_val s = byte_val t) ->
  buflen sb < 41 ->
  verify_rrsig_dsa vb len sb sl kb kl = ([], Fault).
Proof.
  intros Ht Hd HT Hshort.
  pose proof (spec_dsa_key_T _ _ _ Ht Hd) as HT8.
  destruct (verify_rrsig_dsa_run vb len sb sl kb kl); try reflexivity.
  - assert (t0 = t) by congruence. subst. lia.
  - assert (t0 = t) by congruence. subst.
    exfalso. match goal with Hne : byte_val _ <> _ |- _ => apply Hne end.
    now apply HT.
  - exfalso.
    match goal with
    | Hr : load_range sb 21 20 = Some _ |- _ =>
        apply load_range_some in Hr as (_ & _ & Hfit & _)
    end. lia.
Qed.

(** X11.  An RSA key blob may announce an exponent of length zero, which
    only the 3-byte header can do; the verifiers do not reject it: the
    key decodes with exponent 0 and [RSA_verify] is called with it. *)
Theorem X11_rsa_empty_exponent (p : path) vb len sb sl kb kl off :
  p <> Path_DSA ->
  spec_rsa_header kb = Some (0, off) ->
  off <= kl < 2 ^ 31 -> kl <= buflen kb ->
  off = 3 /\
  exists rsa,
    spec_rsa_key kb kl = Some rsa /\ rsa_e rsa = 0 /\
    forall data h,
      load_range vb 0 len = Some data -> path_digest p data = Some h ->
      In (Ev_RSA_verify (path_nid p) (Some h) (path_dlen p) sb sl rsa)
         (trace (dispatch_verifier p vb len sb sl kb kl)).
Proof.
  intros Hp Hh Hkl Hfit.
  assert (Hoff : off = 3).
  { revert Hh. unfold spec_rsa_header.
    destruct (load kb 0) as [b0|]; [|discriminate].
    destruct (Z.eqb_spec (byte_val b0) 0) as [E0|N0].
    - destruct (load kb 1); [|discriminate].
      destruct (load kb 2); [|discriminate].
      intros Heq. injection Heq as _ E. congruence.
    - intros Heq. injection Heq as E _. congruence. }
  split; [exact Hoff|]. subst off.
  assert (Hk : spec_rsa_key kb kl
               = Some {| rsa_n := be2Z (firstn (Z.to_nat (kl - (3 + 0)))
                                          (skipn (Z.to_nat (3 + 0)) kb));
                         rsa_e := be2Z [] |}).
  { unfold spec_rsa_key. rewrite Hh.
    rewrite (load_range_fits kb 3 0) by lia.
    rewrite (load_range_fits kb (3 + 0)) by lia.
    reflexivity. }
  eexists. split; [exact Hk|]. split; [reflexivity|].
  intros data h Hd Hdg.
  destruct (rsa_path_run p vb len sb sl kb kl Hp) as (dev & emsg & Hdev & R).
  eapply rsa_run_total; try eassumption.
  apply decode_rsa_key_complete; [lia|exact Hk].
Qed.

Lemma load_range_cons a (l : buffer) off len :
  0 <= off -> load_range (a :: l) (off + 1) len = load_range l off len.
Proof.
  intros H0. unfold load_range, buflen. cbn [List.length].
  destruct (Z.ltb_spec (off + 1) 0); [lia|].
  destruct (Z.ltb_spec off 0); [lia|].
  destruct (len <? 0); [reflexivity|]. cbn [orb].
  destruct (Z.ltb_spec (Z.of_nat (S (List.length l))) (off + 1 + len));
    destruct (Z.ltb_spec (Z.of_nat (List.length l)) (off + len));
    try lia; [reflexivity|].
  replace (Z.to_nat (off + 1)) with (S (Z.to_nat off)) by lia.
  reflexivity.
Qed.

Lemma decode_rsa_key_long_header (b : byte) rest kl :
  byte_val b <> 0 -> 0 <= kl -> kl + 2 < 2 ^ 31 ->
  decode_rsa_key (x00 :: x00 :: b :: rest) (kl + 2)
  = decode_rsa_key (b :: rest) kl.
Proof.
  intros Hb H0 Hkl.
  pose proof (byte_val_range b) as Hr.
  assert (H3 : spec_rsa_header (x00 :: x00 :: b :: rest)
               = Some (byte_val b, 3)) by reflexivity.
  assert (H1 : spec_rsa_header (b :: rest) = Some (byte_val b, 1)).
  { unfold spec_rsa_header. rewrite load_cons_0.
    destruct (Z.eqb_spec (byte_val b) 0); [contradiction|reflexivity]. }
  rewrite (decode_rsa_key_header _ _ _ _ H3), (decode_rsa_key_header _ _ _ _ H1).
  assert (Hdrop : forall off n, 0 <= off ->
            load_range (x00 :: x00 :: b :: rest) (off + 2) n
            = load_range (b :: rest) off n).
  { intros off n Hoff. replace (off + 2) with (off + 1 + 1) by lia.
    rewrite !load_range_cons by lia. reflexivity. }
  change (load_range (x00 :: x00 :: b :: rest) 3 (byte_val b))
    with (load_range (x00 :: x00 :: b :: rest) (1 + 2) (byte_val b)).
  rewrite Hdrop by lia.
  replace (3 + byte_val b) with (1 + byte_val b + 2) by lia.
  rewrite Hdrop by lia.
  rewrite (to_int_small (kl + 2)), (to_int_small kl) by lia.
  replace (kl + 2 - (1 + byte_val b + 2)) with (kl - (1 + byte_val b)) by lia.
  reflexivity.
Qed.

(** X12.  The RSA verifiers accept the 3-byte header also for an exponent
    length that fits one byte: a blob that begins 00 00 [b], with [b] not
    zero, gives exactly the run of the blob without the two zero bytes
    and a [keylen] smaller by two. *)
Theorem X12_rsa_long_header_for_short_exponent (p : path)
    vb len sb sl (b : byte) rest kl :
  p <> Path_DSA ->
  byte_val b <> 0 -> 0 <= kl -> kl + 2 < 2 ^ 31 ->
  dispatch_verifier p vb len sb sl (x00 :: x00 :: b :: rest) (kl + 2)
  = dispatch_verifier p vb len sb sl (b :: rest) kl.
Proof.
  intros Hp Hb H0 Hkl.
  pose proof (decode_rsa_key_long_header b rest kl Hb H0 Hkl) as E.
  destruct p; [contradiction| |]; cbn [dispatch_verifier].
  - unfold verify_rrsig_rsasha1. rewrite E. reflexivity.
  - unfold verify_rrsig_rsamd5. rewrite E. reflexivity.
Qed.

Lemma load_prefix (b b' : buffer) (n : nat) i :
  firstn n b = firstn n b' -> 0 <= i < Z.of_nat n ->
  load b i = load b' i.
Proof.
  intros Heq Hi. unfold load.
  destruct (Z.ltb_spec i 0); [lia|].
  assert (Hlt : (Z.to_nat i <? n)%nat = true) by (apply Nat.ltb_lt; lia).
  pose proof (nth_error_firstn n b (Z.to_nat i)) as E1.
  pose proof (nth_error_firstn n b' (Z.to_nat i)) as E2.
  rewrite Hlt in E1, E2. rewrite <- E1, <- E2, Heq. reflexivity.
Qed.

Lemma load_range_prefix (b b' : buffer) (n : nat) off len :
  firstn n b = firstn n b' ->
  Z.of_nat n <= buflen b -> Z.of_nat n <= buflen b' ->
  0 <= off -> 0 <= len -> off + len <= Z.of_nat n ->
  load_range b off len = load_range b' off len.
Proof.
  intros Heq Hb Hb' Hoff Hlen Hfit.
  rewrite !load_range_fits by lia. f_equal.
  assert (Hcut : forall l : buffer,
            firstn (Z.to_nat len) (skipn (Z.to_nat off) l)
            = firstn (Z.to_nat len) (skipn (Z.to_nat off) (firstn n l))).
  { intros l. rewrite skipn_firstn_comm, firstn_firstn.
    f_equal. lia. }
  rewrite (Hcut b), (Hcut b'), Heq. reflexivity.
Qed.

Lemma spec_rsa_key_prefix kb kb' kl rsa :
  0 <= kl -> kl <= buflen kb -> kl <= buflen kb' ->
  firstn (Z.to_nat kl) kb = firstn (Z.to_nat kl) kb' ->
  spec_rsa_key kb kl = Some rsa -> spec_rsa_key kb' kl = Some rsa.
Proof.
  intros H0 Hb Hb' Heq. unfold spec_rsa_key.
  destruct (spec_rsa_header kb) as [[el off]|] eqn:Hh; [|discriminate].
  pose proof (spec_rsa_header_range _ _ _ Hh) as [Hel Hoff].
  destruct (load_range kb off el) as [e|] eqn:He; [|discriminate].
  destruct (load_range kb (off + el) _) as [nb|] eqn:Hn; [|discriminate].
  intros Hrsa.
  apply load_range_some in Hn as Hn'. destruct Hn' as (_ & Hpos & _).
  assert (Hh' : spec_rsa_header kb' = Some (el, off)).
  { revert Hh. unfold spec_rsa_header.
    rewrite <- (load_prefix kb kb' (Z.to_nat kl) 0 Heq) by lia.
    destruct (load kb 0) as [b0|]; [|discriminate].
    destruct (byte_val b0 =? 0); [|auto].
    destruct (load kb 1) as [hi|] eqn:E1; [|discriminate].
    destruct (load kb 2) as [lo|] eqn:E2; [|discriminate].
    intros Hq. assert (off = 3) by congruence. subst off.
    rewrite <- (load_prefix kb kb' (Z.to_nat kl) 1 Heq) by lia.
    rewrite <- (load_prefix kb kb' (Z.to_nat kl) 2 Heq) by lia.
    rewrite E1, E2. exact Hq. }
  rewrite Hh'.
  rewrite <- (load_range_prefix kb kb' (Z.to_nat kl) off el Heq) by lia.
  rewrite <- (load_range_prefix kb kb' (Z.to_nat kl) (off + el) _ Heq) by lia.
  rewrite He, Hn. exact Hrsa.
Qed.

Lemma decode_rsa_key_prefix kb kb' kl :
  0 <= kl < 2 ^ 31 -> kl <= buflen kb -> kl <= buflen kb' ->
  firstn (Z.to_nat kl) kb = firstn (Z.to_nat kl) kb' ->
  decode_rsa_key kb kl = decode_rsa_key kb' kl.
Proof.
  intros Hkl Hb Hb' Heq.
  destruct (decode_rsa_key_shape kb kl) as [E|[rsa E]];
    destruct (decode_rsa_key_shape kb' kl) as [E'|[rsa' E']].
  - congruence.
  - apply decode_rsa_key_sound in E' as [Hk' _]; [|lia].
    apply (spec_rsa_key_prefix kb' kb kl rsa') in Hk'; auto; [|lia].
    apply decode_rsa_key_complete in Hk'; [congruence|lia].
  - apply decode_rsa_key_sound in E as [Hk _]; [|lia].
    apply (spec_rsa_key_prefix kb kb' kl rsa) in Hk; auto; [|lia].
    apply decode_rsa_key_complete in Hk; [congruence|lia].
  - pose proof E as Hk.
    apply decode_rsa_key_sound in Hk as [Hk _]; [|lia].
    apply (spec_rsa_key_prefix kb kb' kl rsa) in Hk; auto; [|lia].
    apply decode_rsa_key_complete in Hk; [congruence|lia].
Qed.

(** X13.  The RSA verifiers use no byte of the key object beyond
    [keylen]: two key objects of at least [keylen] bytes that agree on
    their first [keylen] bytes give the same run. *)
Theorem X13_rsa_uses_only_keylen_bytes (p : path) vb len sb sl kb kb' kl :
  p <> Path_DSA ->
  0 <= kl < 2 ^ 31 -> kl <= buflen kb -> kl <= buflen kb' ->
  firstn (Z.to_nat kl) kb = firstn (Z.to_nat kl) kb' ->
  dispatch_verifier p vb len sb sl kb kl
  = dispatch_verifier p vb len sb sl kb' kl.
Proof.
  intros Hp Hkl Hb Hb' Heq.
  pose proof (decode_rsa_key_prefix kb kb' kl Hkl Hb Hb' Heq) as E.
  destruct p; [contradiction| |]; cbn [dispatch_verifier].
  - unfold verify_rrsig_rsasha1. rewrite E. reflexivity.
  - unfold verify_rrsig_rsamd5. rewrite E. reflexivity.
Qed.

Lemma be2Z_fold_bound (bs : list byte) (acc : Z) :
  0 <= acc ->
  0 <= fold_left (fun a b => a * 256 + byte_val b) bs acc
    < (acc + 1) * 256 ^ buflen bs.
Proof.
  revert acc. induction bs as [|b bs IH]; intros acc Hacc.
  - cbn. lia.
  - pose proof (byte_val_range b) as Hb.
    cbn [fold_left].
    specialize (IH (acc * 256 + byte_val b) ltac:(lia)).
    assert (Hlen : buflen (b :: bs) = Z.succ (buflen bs))
      by (unfold buflen; cbn [List.length]; lia).
    rewrite Hlen, Z.pow_succ_r by (unfold buflen; lia).
    assert (Hp : 0 < 256 ^ buflen bs)
      by (apply Z.pow_pos_nonneg; unfold buflen; lia).
    nia.
Qed.

Lemma be2Z_bound (bs : list byte) : 0 <= be2Z bs < 256 ^ buflen bs.
Proof.
  pose proof (be2Z_fold_bound bs 0 ltac:(lia)) as H.
  unfold be2Z. lia.
Qed.

Lemma load_range_be2Z_bound b off len bs :
  load_range b off len = Some bs -> 0 <= be2Z bs < 256 ^ len.
Proof.
  intros H. apply load_range_some in H as (_ & _ & _ & Hl & _).
  rewrite <- Hl. apply be2Z_bound.
Qed.

(** X15.  The numbers the DSA verifier hands to [DSA_do_verify] are
    non-negative and bounded by their field widths: [Q], [R] and [S] are
    below [256^20], and [P], [G] and [Y] below [256^(64 + T*8)] for the
    [T] of the key blob. *)
Theorem X15_dsa_number_ranges vb len sb sl kb kl t h n sg d :
  load kb 0 = Some t ->
  In (Ev_DSA_do_verify h n sg d)
     (trace (verify_rrsig_dsa vb len sb sl kb kl)) ->
  let bound := 256 ^ numberlength_of (byte_val t) in
  0 <= dsa_q d < 256 ^ 20 /\
  0 <= sig_r sg < 256 ^ 20 /\ 0 <= sig_s sg < 256 ^ 20 /\
  0 <= dsa_p d < bound /\ 0 <= dsa_g d < bound /\
  0 <= dsa_pub_key d < bound.
Proof.
  intros Ht Hin bound.
  assert (Hkey : 0 <= dsa_q d < 256 ^ 20 /\ 0 <= dsa_p d < bound /\
                 0 <= dsa_g d < bound /\ 0 <= dsa_pub_key d < bound).
  { pose proof (dsa_run_call_key _ _ _ _ _ _ _ _ _
                  (verify_rrsig_dsa_run vb len sb sl kb kl) Hin) as Hk.
    revert Hk. unfold spec_dsa_key. rewrite Ht. cbv zeta.
    destruct (8 <? byte_val t); [discriminate|].
    destruct (load_range kb 1 20) as [q|] eqn:Hq; [|discriminate].
    destruct (load_range kb 21 _) as [pb|] eqn:Hp; [|discriminate].
    destruct (load_range kb (21 + _) _) as [g|] eqn:Hg; [|discriminate].
    destruct (load_range kb (21 + _ + _) _) as [y|] eqn:Hy; [|discriminate].
    intros [= <-]. cbn [dsa_q dsa_p dsa_g dsa_pub_key].
    apply load_range_be2Z_bound in Hq, Hp, Hg, Hy. tauto. }
  assert (Hsig : 0 <= sig_r sg < 256 ^ 20 /\ 0 <= sig_s sg < 256 ^ 20).
  { revert Hin.
    destruct (verify_rrsig_dsa_run vb len sb sl kb kl); cbn [trace fst In];
      try (intros Hin; repeat destruct Hin as [Hin|Hin];
           try discriminate Hin; tauto).
    intros [Hin|[Hin|Hin]]; try discriminate Hin.
    - injection Hin as _ _ <- _. cbn [sig_r sig_s].
      match goal with
      | Hr : load_range sb 1 20 = Some _,
        Hs : load_range sb 21 20 = Some _ |- _ =>
          apply load_range_be2Z_bound in Hr, Hs; tauto
      end.
    - apply report_trace_quiet in Hin as [Hv _]. discriminate Hv. }
  tauto.
Qed.

End Extras.

(** ** Runs in the concrete environment *)

Import Demo.

Lemma demo_xmalloc_size n : 0 <= n -> buflen (xmalloc n) = n.
Proof.
  intros H. unfold buflen. cbn [xmalloc ldns]. rewrite repeat_length. lia.
Qed.

(** C1, at an RRSIG with algorithm 8: the process is terminated, no value
    is returned. *)
Lemma C1_counterexample :
  let rrsig := rrsig_of x08 (dsa_sig x00 x05 x05) in
  let m := verify_rrsig rrset2 rrsig (dnskey_of x08 (dsa_key x00)) in
  option_map rdata2uint8 (nth_error (rdata rrsig) 1) = Some 8 /\
  ~ In 8 [ALG_DSA; ALG_RSASHA1; ALG_RSAMD5] /\
  result m = Exit EXIT_FAILURE /\
  ~ (exists v, result m = Return v).
Proof.
  vm_compute. repeat split.
  - intros [H|[H|[H|[]]]]; discriminate H.
  - intros [v H]. discriminate H.
Qed.

Lemma C1_witness :
  exists tr,
    verify_rrsig rrset2 (rrsig_of x08 (dsa_sig x00 x05 x05))
                 (dnskey_of x08 (dsa_key x00))
    = (tr, Exit EXIT_FAILURE).
Proof.
  eexists.
  eapply C1_unsupported_algorithm_exits;
    try reflexivity; vm_compute; intros H; discriminate H.
Defined.

(** C2, in the DSA verifier: a call in which the primitive reports an
    internal error and a call in which it reports a signature that does
    not match end with the same value. *)
Lemma C2_counterexample :
  let failed := verify_rrsig_dsa [x61; x62] 2 (dsa_sig x00 x00 x06) 41
                                 (dsa_key x00) 213 in
  let invalid := verify_rrsig_dsa [x61; x62] 2 (dsa_sig x00 x05 x06) 41
                                  (dsa_key x00) 213 in
  In (Some (-1)) (map reported (trace failed)) /\
  In (Some 0) (map reported (trace invalid)) /\
  result failed = Return RET_FAIL /\
  result invalid = Return RET_FAIL.
Proof.
  vm_compute. repeat split; auto.
Qed.

Lemma C2_witness :
  let m := dispatch_verifier Path_DSA [x61; x62] 2 (dsa_sig x00 x05 x05) 41
                             (dsa_key x00) 213 in
  (forall r, In (Some r) (map reported (trace m)) ->
             result m = Return (if r =? 1 then RET_SUC else RET_FAIL)) /\
  (result m = Return RET_SUC <-> In (Some 1) (map reported (trace m))).
Proof.
  apply (C2_primitive_result_mapping Path_DSA).
  vm_compute. intros H. discriminate H.
Defined.

(** C3, at an RRSIG of algorithm 3 (DSA) and a DNSKEY of algorithm 5: the
    DSA verifier is called, and here accepts the signature. *)
Lemma C3_counterexample :
  let rrsig := rrsig_of x03 (dsa_sig x00 x05 x05) in
  let dnskey := dnskey_of x05 (dsa_key x00) in
  let m := verify_rrsig rrset2 rrsig dnskey in
  option_map rdata2uint8 (nth_error (rdata rrsig) 1) = Some 3 /\
  option_map rdata2uint8 (nth_error (rdata dnskey) 2) = Some 5 /\
  existsb is_verify_call (trace m) = true /\
  result m = Return RET_SUC.
Proof.
  vm_compute. repeat split.
Qed.

Lemma C3_witness :
  verify_rrsig rrset2 (rrsig_of x03 (dsa_sig x00 x05 x05))
               (dnskey_of x05 (dsa_key x00))
  = verify_rrsig rrset2 (rrsig_of x03 (dsa_sig x00 x05 x05))
                 (dnskey_of x03 (dsa_key x00)).
Proof.
  apply C3_dnskey_algorithm_not_read. reflexivity.
Defined.

(** C4, at the key blob 01 03 (a one-byte exponent and no modulus): the
    computed modulus length is zero, the RSA primitive is called all the
    same, and the value returned is the one that maps its report. *)
Lemma C4_counterexample :
  let m := verify_rrsig_rsasha1 [x61; x62] 2 [x03] 1 [x01; x03] 2 in
  spec_modulus_length [x01; x03] 2 = Some 0 /\
  existsb is_verify_call (trace m) = true /\
  In (Some (-1)) (map reported (trace m)) /\
  result m = Return RET_FAIL.
Proof.
  vm_compute. repeat split; auto.
Qed.

Lemma C4_witness :
  let m := dispatch_verifier Path_RSASHA1 [x61; x62] 2 [x03] 1 [x01; x03] 2 in
  (0 = 0 -> 2 <= buflen [x01; x03] ->
   exists rsa,
     spec_rsa_key [x01; x03] 2 = Some rsa /\ rsa_n rsa = 0 /\
     forall data h,
       load_range [x61; x62] 0 2 = Some data ->
       path_digest Path_RSASHA1 data = Some h ->
       In (Ev_RSA_verify (path_nid Path_RSASHA1) (Some h)
             (path_dlen Path_RSASHA1) [x03] 1 rsa) (trace m)) /\
  (0 < 0 -> m = ([], Fault)).
Proof.
  apply (C4_no_modulus_length_check Path_RSASHA1).
  - intros H. discriminate H.
  - lia.
  - reflexivity.
Defined.

(** C5, at a key with [T = 0] and a signature with [T = 1]: the value
    returned is the one returned for a signature with [T = 0] that the
    primitive finds invalid. *)
Lemma C5_counterexample :
  let mismatch := verify_rrsig_dsa [x61; x62] 2 (dsa_sig x01 x05 x06) 41
                                   (dsa_key x00) 213 in
  let invalid := verify_rrsig_dsa [x61; x62] 2 (dsa_sig x00 x05 x06) 41
                                  (dsa_key x00) 213 in
  load (dsa_sig x01 x05 x06) 0 <> load (dsa_key x00) 0 /\
  In (Some 0) (map reported (trace invalid)) /\
  result mismatch = Return RET_FAIL /\
  result invalid = Return RET_FAIL.
Proof.
  vm_compute. repeat split; auto. intros H. discriminate H.
Qed.

Lemma C5_witness :
  let m := verify_rrsig_dsa [x61; x62] 2 (dsa_sig x01 x05 x06) 41
                            (dsa_key x00) 213 in
  existsb is_verify_call (trace m) = false /\
  (result m = Fault \/ result m = Return RET_FAIL) /\
  (forall d, spec_dsa_key (dsa_key x00) = Some d ->
     m = ([Ev_warning "Values for T are different in key and signature, verification of DSA sig failed" []],
          Return RET_FAIL)).
Proof.
  apply (C5_dsa_T_mismatch _ _ _ _ _ _ x00 x01).
  - reflexivity.
  - reflexivity.
  - vm_compute. intros H. discriminate H.
Defined.

Lemma C6_witness :
  let kb := dsa_key x08 in
  let T := byte_val x08 in
  let m := verify_rrsig_dsa [x61; x62] 2 (dsa_sig x08 x05 x05) 41 kb 405 in
  numberlength_of 0 = 64 /\ numberlength_of 8 = 128 /\
  (8 < T ->
   m = ([Ev_warning "DSA type > 8 not implemented, unable to verify signature" []],
        Return RET_FAIL)) /\
  (forall h n sg d,
     In (Ev_DSA_do_verify h n sg d) (trace m) ->
     T <= 8 /\ spec_dsa_key kb = Some d) /\
  (T <= 8 -> 20 + 3 * numberlength_of T < buflen kb ->
   exists d,
     spec_dsa_key kb = Some d /\
     forall s r s' data,
       load (dsa_sig x08 x05 x05) 0 = Some s -> byte_val s = T ->
       load_range (dsa_sig x08 x05 x05) 1 20 = Some r ->
       load_range (dsa_sig x08 x05 x05) 21 20 = Some s' ->
       load_range [x61; x62] 0 2 = Some data ->
       In (Ev_DSA_do_verify (SHA1 data) 20
             {| sig_r := be2Z r; sig_s := be2Z s' |} d) (trace m)).
Proof.
  apply (C6_dsa_key_decoding [x61; x62] 2 (dsa_sig x08 x05 x05) 41
           (dsa_key x08) 405 x08).
  reflexivity.
Defined.

Lemma C7_witness :
  let kb := [x03; x01; x00; x01; x23] in
  let m := dispatch_verifier Path_RSAMD5 [x61; x62] 2 [x03] 1 kb 5 in
  (forall ty h n sb' sl' rsa,
     In (Ev_RSA_verify ty h n sb' sl' rsa) (trace m) ->
     spec_rsa_key kb 5 = Some rsa) /\
  (forall rsa data h,
     5 < 2 ^ 31 -> spec_rsa_key kb 5 = Some rsa ->
     load_range [x61; x62] 0 2 = Some data ->
     path_digest Path_RSAMD5 data = Some h ->
     In (Ev_RSA_verify (path_nid Path_RSAMD5) (Some h)
           (path_dlen Path_RSAMD5) [x03] 1 rsa) (trace m)) /\
  (forall rest ty h n sb' sl' rsa,
     kb = x00 :: x01 :: x00 :: rest ->
     In (Ev_RSA_verify ty h n sb' sl' rsa) (trace m) ->
     rsa_e rsa = be2Z (firstn 256 rest) /\
     rsa_n rsa = be2Z (firstn (Z.to_nat (5 - 259)) (skipn 256 rest))) /\
  (forall rest ty h n sb' sl' rsa,
     kb = x03 :: rest ->
     In (Ev_RSA_verify ty h n sb' sl' rsa) (trace m) ->
     rsa_e rsa = be2Z (firstn 3 rest) /\
     rsa_n rsa = be2Z (firstn (Z.to_nat (5 - 4)) (skipn 3 rest))).
Proof.
  apply (C7_rsa_key_decoding Path_RSAMD5 [x61; x62] 2 [x03] 1
           [x03; x01; x00; x01; x23] 5).
  - intros H. discriminate H.
  - lia.
Defined.

Lemma C8_witness :
  let rrsig := rrsig_of x01 [x03] in
  let dnskey := dnskey_of x01 [x01; x03; x23] in
  exists vb len sl,
    signed_buffer rrset2 rrsig = ([], Return (vb, len)) /\
    let m := verify_rrsig rrset2 rrsig dnskey in
    m = dispatch_verifier Path_RSAMD5 vb len [x03] sl [x01; x03; x23] 3 /\
    Forall (pairing Path_RSAMD5 vb len) (trace m) /\
    (forall data,
       reaches_digest Path_RSAMD5 [x03] [x01; x03; x23] 3 ->
       load_range vb 0 len = Some data ->
       In (path_digest_event Path_RSAMD5 data) (trace m) /\
       (Path_RSAMD5 = Path_DSA \/ path_digest Path_RSAMD5 data <> None ->
        In (Some (expected_call_digest Path_RSAMD5 data))
           (map call_digest (trace m)))).
Proof.
  refine (proj2 (C8_digest_pairing Path_RSAMD5 rrset2 (rrsig_of x01 [x03])
                   (dnskey_of x01 [x01; x03; x23]) (rd [x01]) _ _ _
                   eq_refl eq_refl)
            (rd [x03]) (rd [x00; x00; x0e; x10]) (rd [x01; x03; x23])
            eq_refl eq_refl eq_refl).
  - vm_compute. intros H. discriminate H.
  - vm_compute. intros H. discriminate H.
  - vm_compute. intros H. discriminate H.
Defined.

Lemma C9_witness :
  let rrsig := rrsig_of x05 [x03] in
  let dnskey := dnskey_of x05 [x01; x03; x23] in
  let canon := rrset_set_ttl (rrset_sort rrset2) 3600 in
  let signed := sig_fields rrsig ++ rrset_wire canon in
  exists vb len,
    signed_buffer rrset2 rrsig = ([], Return (vb, len)) /\
    load_range vb 0 len = Some signed /\
    (forall e, In e (trace (verify_rrsig rrset2 rrsig dnskey)) ->
       is_digest_call e = true ->
       e = Ev_SHA1 signed \/ e = Ev_MD5 signed) /\
    (forall (p : path) rd8 rd1 kd,
       ALG_DSA <> ALG_RSASHA1 -> ALG_DSA <> ALG_RSAMD5 ->
       ALG_RSASHA1 <> ALG_RSAMD5 ->
       nth_error (rdata rrsig) 8 = Some rd8 ->
       nth_error (rdata rrsig) 1 = Some rd1 ->
       nth_error (rdata dnskey) 3 = Some kd ->
       rdata2uint8 rd1 = alg_of_path p ->
       let sb := fst (base64_decode (rd_data rd8) (to_int (rd_length rd8))) in
       let ky := base64_decode (rd_data kd) (to_int (rd_length kd)) in
       let kb := fst ky in
       let kl := to_uint (snd ky) in
       let m := verify_rrsig rrset2 rrsig dnskey in
       (exists sl, m = dispatch_verifier p vb len sb sl kb kl) /\
       (reaches_digest p sb kb kl ->
        In (path_digest_event p signed) (trace m) /\
        (p = Path_DSA \/ path_digest p signed <> None ->
         In (Some (expected_call_digest p signed))
            (map call_digest (trace m))))).
Proof.
  apply (C9_signed_buffer sig_fields rrset_wire demo_xmalloc_size
           (fun _ _ _ _ _ _ => eq_refl) (fun _ _ _ _ _ _ => eq_refl)
           rrset2 (rrsig_of x05 [x03]) (dnskey_of x05 [x01; x03; x23])
           (rd [x00; x00; x0e; x10])).
  - reflexivity.
  - vm_compute. split; [intros H; discriminate H | reflexivity].
  - vm_compute. intros H. discriminate H.
Defined.

Lemma C10_witness :
  verify_rrsig_dsa [x61; x62] 2 (dsa_sig x00 x05 x05) 41 (dsa_key x00) 213
  = verify_rrsig_dsa [x61; x62] 2 (dsa_sig x00 x05 x05 ++ [x07; x07]) 0
                     (dsa_key x00) 213.
Proof.
  refine (proj1 (proj2
            (C10_dsa_ignores_siglen [x61; x62] 2 (dsa_sig x00 x05 x05) 41 0
               (dsa_key x00) 213)) _ _).
  reflexivity.
Defined.

Lemma X2_witness :
  exists msg,
    dispatch_verifier (SSL := openssl_null) Path_RSASHA1
      [x61; x62] 2 [x03] 1 [x01; x03; x23] 3
    = ([path_digest_event Path_RSASHA1 [x61; x62]; Ev_error msg],
       Exit EXIT_FAILURE).
Proof.
  apply (X2_rsa_null_digest_exits (SSL := openssl_null) Path_RSASHA1
           [x61; x62] 2 [x03] 1 [x01; x03; x23] 3
           {| rsa_n := 35; rsa_e := 3 |} [x61; x62]).
  - intros H. discriminate H.
  - lia.
  - reflexivity.
  - reflexivity.
  - reflexivity.
Defined.

Lemma X3_witness :
  In (Ev_DSA_do_verify None 20 {| sig_r := 5; sig_s := 5 |}
        {| dsa_p := be2Z (repeat x01 64); dsa_q := be2Z (repeat x01 20);
           dsa_g := be2Z (repeat x01 64);
           dsa_pub_key := be2Z (repeat x01 64) |})
     (trace (verify_rrsig_dsa (SSL := openssl_null) [x61; x62] 2
               (dsa_sig x00 x05 x05) 0 (dsa_key x00) 213)).
Proof.
  refine (proj2 (X3_dsa_null_digest_unchecked (SSL := openssl_null)
                   [x61; x62] 2 (dsa_sig x00 x05 x05) 0 (dsa_key x00) 213)
            x00 _ x00 [x61; x62] _ _ _ _ _ _ _).
  - reflexivity.
  - reflexivity.
  - reflexivity.
  - reflexivity.
  - vm_compute. intros H. discriminate H.
  - reflexivity.
  - reflexivity.
Defined.

Lemma X5_witness :
  let m := verify_rrsig rrset2 (rrsig_of x03 (dsa_sig x00 x05 x05))
                        (dnskey_of x03 (dsa_key x00)) in
  result m = Return RET_SUC <-> In (Some 1) (map reported (trace m)).
Proof.
  apply X5_success_iff_primitive_accepts.
  vm_compute. intros H. discriminate H.
Defined.


Lemma X9_witness :
  verify_rrsig_dsa [x61; x62] 2 (dsa_sig x00 x05 x05) 41 [x00; x01] 213
  = ([], Fault).
Proof.
  apply (X9_dsa_short_key_faults _ _ _ _ _ _ x00).
  - reflexivity.
  - vm_compute. intros H. discriminate H.
  - reflexivity.
Defined.

Lemma X10_witness :
  verify_rrsig_dsa [x61; x62] 2 [x00; x05] 41 (dsa_key x00) 213
  = ([], Fault).
Proof.
  eapply (X10_dsa_short_signature_faults _ _ _ _ _ _ x00).
  - reflexivity.
  - reflexivity.
  - intros s H. injection H as <-. reflexivity.
  - reflexivity.
Defined.

Lemma X11_witness :
  3 = 3 /\
  exists rsa,
    spec_rsa_key [x00; x00; x00; x23] 4 = Some rsa /\ rsa_e rsa = 0 /\
    forall data h,
      load_range [x61; x62] 0 2 = Some data ->
      path_digest Path_RSAMD5 data = Some h ->
      In (Ev_RSA_verify (path_nid Path_RSAMD5) (Some h)
            (path_dlen Path_RSAMD5) [x03] 1 rsa)
         (trace (dispatch_verifier Path_RSAMD5 [x61; x62] 2 [x03] 1
                   [x00; x00; x00; x23] 4)).
Proof.
  apply (X11_rsa_empty_exponent Path_RSAMD5 [x61; x62] 2 [x03] 1
           [x00; x00; x00; x23] 4 3).
  - intros H. discriminate H.
  - reflexivity.
  - lia.
  - vm_compute. intros H. discriminate H.
Defined.

Lemma X12_witness :
  dispatch_verifier Path_RSASHA1 [x61; x62] 2 [x03] 1
    [x00; x00; x01; x03; x23] (3 + 2)
  = dispatch_verifier Path_RSASHA1 [x61; x62] 2 [x03] 1 [x01; x03; x23] 3.
Proof.
  apply (X12_rsa_long_header_for_short_exponent Path_RSASHA1).
  - intros H. discriminate H.
  - vm_compute. intros H. discriminate H.
  - lia.
  - lia.
Defined.

Lemma X13_witness :
  dispatch_verifier Path_RSASHA1 [x61; x62] 2 [x03] 1 [x01; x03; x23] 3
  = dispatch_verifier Path_RSASHA1 [x61; x62] 2 [x03] 1
      [x01; x03; x23; xff; xff] 3.
Proof.
  apply (X13_rsa_uses_only_keylen_bytes Path_RSASHA1).
  - intros H. discriminate H.
  - lia.
  - vm_compute. intros H. discriminate H.
  - vm_compute. intros H. discriminate H.
  - reflexivity.
Defined.

Lemma X15_witness :
  let d := {| dsa_p := be2Z (repeat x01 64); dsa_q := be2Z (repeat x01 20);
              dsa_g := be2Z (repeat x01 64);
              dsa_pub_key := be2Z (repeat x01 64) |} in
  let sg := {| sig_r := 5; sig_s := 6 |} in
  let bound := 256 ^ numberlength_of (byte_val x00) in
  0 <= dsa_q d < 256 ^ 20 /\
  0 <= sig_r sg < 256 ^ 20 /\ 0 <= sig_s sg < 256 ^ 20 /\
  0 <= dsa_p d < bound /\ 0 <= dsa_g d < bound /\
  0 <= dsa_pub_key d < bound.
Proof.
  apply (X15_dsa_number_ranges [x61; x62] 2 (dsa_sig x00 x05 x06) 41
           (dsa_key x00) 213 x00 (Some (repeat x00 20)) 20).
  - reflexivity.
  - vm_compute. auto.
Defined.
